(** * pysellus.registrar: registration of stream testers and failure dispatch

    A shallow embedding of [pysellus/registrar.py].  Python functions of the
    module become computations in a small state-and-exception monad that
    also records the calls made to collaborators, so that "is invoked
    exactly once" and "is not invoked" are statements about a list of
    events.  The [integrations] module and the testers are external to the
    file and are carried by the world as data. *)

From Stdlib Require Import ZArith String List Bool Lia.
From stdpp Require Import base option list gmap strings.

Set Warnings "-register-all".
Open Scope string_scope.
Open Scope list_scope.

(** ** Python values and exceptions *)

(** The part of the exception hierarchy that the handler of
    [_on_failure_wrapper] tells apart: classes that derive from [Exception]
    and the classes that derive from [BaseException] only. *)
Inductive exc_class :=
| KeyError
| IndexError
| OtherException (name : string)      (* any other subclass of Exception *)
| SystemExit
| KeyboardInterrupt
| GeneratorExit
| OtherBaseException (name : string). (* a direct subclass of BaseException *)

(** [isinstance(e, Exception)] *)
Definition is_Exception (c : exc_class) : bool :=
  match c with
  | KeyError | IndexError | OtherException _ => true
  | SystemExit | KeyboardInterrupt | GeneratorExit | OtherBaseException _ => false
  end.

Record pyexc := mk_exc { exc_type : exc_class; exc_args : string }.

Inductive pyval :=
| VNone
| VBool (b : bool)
| VInt (z : Z)
| VStr (s : string)
| VList (l : list pyval)
| VTuple (l : list pyval)
| VExc (e : pyexc).

(** Truth value testing, as [not x] and [if x] perform it. *)
Definition truthy (v : pyval) : bool :=
  match v with
  | VNone => false
  | VBool b => b
  | VInt z => negb (z =? 0)%Z
  | VStr s => negb (String.eqb s "")
  | VList l => negb (Nat.eqb (length l) 0)
  | VTuple l => negb (Nat.eqb (length l) 0)
  | VExc _ => true
  end.

(** What evaluating a call gives: a value, or a raised exception. *)
Inductive outcome (A : Type) :=
| Return (a : A)
| Raise (e : pyexc).
Arguments Return {A} a.
Arguments Raise {A} e.

(** ** Testers, wrapped testers, streams *)

(** An object identity ([id(obj)]). *)
Definition obj_id := positive.

(** A stream is only ever used as a dictionary key; rx observables hash
    and compare by identity. *)
Definition stream := obj_id.

(** A tester: a callable with a [__name__], applied to one element. *)
Record tester := mk_tester {
  tester_name : string;                      (* tester.__name__ *)
  tester_call : pyval -> outcome pyval       (* tester(element) *)
}.

(** [partial(_on_failure_wrapper, test_name, tester)] *)
Record wrapped_tester := partial_on_failure_wrapper {
  p_test_name : string;
  p_tester : tester
}.

(** A message payload: a dict with string keys. *)
Abbreviation payload := (gmap string pyval).

(** ** The integrations module (external collaborator)

    [pysellus.integrations] is not part of this file.  The registrar uses
    three of its attributes: the dict [registered_integrations] and the
    functions [notify_element] and [notify_error].  The two functions are
    taken as given: for each pair of arguments they either return
    ([None]) or raise ([Some e]). *)
Record integrations_module := {
  registered_integrations : gmap string (gmap string pyval);
  notify_element_raises : string -> payload -> option pyexc;
  notify_error_raises : string -> payload -> option pyexc
}.

(** ** Interpreter state *)

(** A frame record of [inspect.stack()]: the six items of the tuple, in
    order; [function] is item [3]. *)
Record FrameInfo := {
  frame : obj_id;
  filename : string;
  lineno : Z;
  function : string;
  code_context : list string;
  index : Z
}.

Record World := {
  (* contents of the dict objects, by identity *)
  dict_store : obj_id -> gmap stream (list wrapped_tester);
  (* the imported module [integrations] *)
  integrations : integrations_module;
  (* the interpreter stack, innermost frame first *)
  stack : list FrameInfo
}.

(** The calls made during a computation, in order.  [EvCall d f] is the
    call of a Python function named [f] made while [d] frames were active;
    the calls of testers and of the two notification entry points are
    recorded with their arguments, a payload with the content it has at
    the time of the call. *)
Inductive event :=
| EvCall (depth : nat) (name : string)
| EvTester (name : string) (element : pyval)
| EvNotifyElement (test_name : string) (p : payload)
| EvNotifyError (test_name : string) (p : payload).

(** ** The monad of Python computations *)

Record run (A : Type) := mk_run {
  result : outcome A;
  final : World;
  events : list event
}.
Arguments mk_run {A} result final events.
Arguments result {A} r.
Arguments final {A} r.
Arguments events {A} r.

Definition M (A : Type) := World -> run A.

Definition ret {A} (a : A) : M A := fun w => mk_run (Return a) w [].

Definition raise {A} (e : pyexc) : M A := fun w => mk_run (Raise e) w [].

Definition bind {A B} (m : M A) (k : A -> M B) : M B :=
  fun w =>
    match m w with
    | mk_run (Return a) w1 evs1 =>
        match k a w1 with
        | mk_run r w2 evs2 => mk_run r w2 (evs1 ++ evs2)
        end
    | mk_run (Raise e) w1 evs1 => mk_run (Raise e) w1 evs1
    end.

Declare Scope py_scope.
Delimit Scope py_scope with py.
Notation "x <- m ;; k" := (bind m (fun x => k))
  (at level 100, m at next level, right associativity) : py_scope.
Notation "m ;; k" := (bind m (fun _ => k))
  (at level 100, right associativity) : py_scope.
Open Scope py_scope.

(** [try: m  except Exception as e: h e] -- the handler takes the
    instances of [Exception]; anything else goes through. *)
Definition try_except_Exception {A} (m : M A) (h : pyexc -> M A) : M A :=
  fun w =>
    match m w with
    | mk_run (Return a) w1 evs1 => mk_run (Return a) w1 evs1
    | mk_run (Raise e) w1 evs1 =>
        if is_Exception (exc_type e) then
          match h e w1 with
          | mk_run r w2 evs2 => mk_run r w2 (evs1 ++ evs2)
          end
        else mk_run (Raise e) w1 evs1
    end.

Definition get_world : M World := fun w => mk_run (Return w) w [].

(** [for x in l: body x] *)
Fixpoint for_each {A} (l : list A) (body : A -> M unit) : M unit :=
  match l with
  | [] => ret tt
  | x :: l' => body x ;; for_each l' body
  end.

(** *** Frames *)

(** The frame record of a running function [name].  The module reads
    item [3] of a record and nothing else, the other items are left at
    fixed values. *)
Definition frame_of (name : string) : FrameInfo :=
  {| frame := 1%positive; filename := ""; lineno := 0;
     function := name; code_context := []; index := 0 |}.

Definition push_frame (fr : FrameInfo) (w : World) : World :=
  {| dict_store := dict_store w; integrations := integrations w;
     stack := fr :: stack w |}.

Definition pop_frame (w : World) : World :=
  {| dict_store := dict_store w; integrations := integrations w;
     stack := tail (stack w) |}.

(** Running the body of a function under a frame: the frame is on the
    stack for the time of the call and leaves it on return as well as on a
    raise. *)
Definition in_frame {A} (fr : FrameInfo) (body : M A) : M A :=
  fun w =>
    match body (push_frame fr w) with
    | mk_run r w1 evs => mk_run r (pop_frame w1) evs
    end.

(** A call of the function [def name(...): body]: the call is recorded
    with the depth of the stack at the call site, then the body runs in a
    frame of that name. *)
Definition def {A} (name : string) (body : M A) : M A :=
  fun w =>
    match in_frame (frame_of name) body w with
    | mk_run r w1 evs => mk_run r w1 (EvCall (length (stack w)) name :: evs)
    end.

(** [inspect.stack()] *)
Definition inspect_stack : M (list FrameInfo) :=
  fun w => mk_run (Return (stack w)) w [].

(** ** pysellus/registrar.py *)

(** [stream_to_testers = {}] (line 6): the dict object that the module
    creates when it is imported.  No statement of the module binds the
    name again, so the name denotes this one object throughout. *)
Definition stream_to_testers : obj_id := 1%positive.

Definition registrar_table (w : World) : gmap stream (list wrapped_tester) :=
  dict_store w stream_to_testers.

Definition set_dict (o : obj_id) (d : gmap stream (list wrapped_tester))
    (w : World) : World :=
  {| dict_store := fun o' => if Pos.eqb o' o then d else dict_store w o';
     integrations := integrations w;
     stack := stack w |}.

(** [_register_tester_for_stream(stream, tester)] *)
Definition _register_tester_for_stream (s : stream) (t : wrapped_tester) : M unit :=
  def "_register_tester_for_stream" (fun w =>
    let d := dict_store w stream_to_testers in
    match d !! s with
    | Some l =>                       (* stream_to_testers[stream].append(tester) *)
        mk_run (Return tt) (set_dict stream_to_testers (<[s := l ++ [t]]> d) w) []
    | None =>                         (* stream_to_testers[stream] = [tester] *)
        mk_run (Return tt) (set_dict stream_to_testers (<[s := [t]]> d) w) []
    end).

(** The dict display of [_make_message_payload]. *)
Definition message_payload (test_name : pyval) (tester_name : string)
    (element : pyval) : payload :=
  <["test_name" := test_name]>
    (<["expect_function" := VStr tester_name]>
      (<["element" := element]> ∅)).

(** [_make_message_payload(test_name, tester_name, element)] *)
Definition _make_message_payload (test_name : pyval) (tester_name : string)
    (element : pyval) : M payload :=
  def "_make_message_payload"
    (ret (message_payload test_name tester_name element)).

(** [d[k]] on a dict: the value, or [KeyError(k)]. *)
Definition getitem {V} (d : gmap string V) (k : string) : M V :=
  match d !! k with
  | Some v => ret v
  | None => raise (mk_exc KeyError k)
  end.

(** [integrations.registered_integrations[test_name]['test_description']] *)
Definition lookup_test_description (test_name : string) : M pyval :=
  w <- get_world ;;
  entry <- getitem (registered_integrations (integrations w)) test_name ;;
  getitem entry "test_description".

(** [tester(element)] *)
Definition call_tester (t : tester) (element : pyval) : M pyval :=
  fun w => mk_run (tester_call t element) w [EvTester (tester_name t) element].

(** The outcome of a call that returns nothing ([None]) or raises. *)
Definition outcome_of (o : option pyexc) : outcome unit :=
  match o with
  | None => Return tt
  | Some e => Raise e
  end.

(** [integrations.notify_element(test_name, payload)] *)
Definition notify_element (test_name : string) (p : payload) : M unit :=
  fun w =>
    mk_run (outcome_of (notify_element_raises (integrations w) test_name p))
           w [EvNotifyElement test_name p].

(** [integrations.notify_error(test_name, payload)] *)
Definition notify_error (test_name : string) (p : payload) : M unit :=
  fun w =>
    mk_run (outcome_of (notify_error_raises (integrations w) test_name p))
           w [EvNotifyError test_name p].

(** [_on_failure_wrapper(test_name, tester, element)] *)
Definition _on_failure_wrapper (test_name : string) (t : tester)
    (element : pyval) : M unit :=
  def "_on_failure_wrapper" (
    description <- lookup_test_description test_name ;;
    payload_message <- _make_message_payload description (tester_name t) element ;;
    try_except_Exception
      (r <- call_tester t element ;;
       if negb (truthy r) then notify_element test_name payload_message
       else ret tt)
      (fun e =>
         notify_error test_name (<["error" := VExc e]> payload_message))).

(** Calling a stored wrapped tester on an element. *)
Definition call_wrapped (p : wrapped_tester) (element : pyval) : M unit :=
  _on_failure_wrapper (p_test_name p) (p_tester p) element.

(** [sum([1, 1, 1]) - 1] *)
Definition distance_to_setup_function : nat := list_sum [1; 1; 1] - 1.

(** [_get_name_of_expect_caller()] *)
Definition _get_name_of_expect_caller : M string :=
  def "_get_name_of_expect_caller" (
    st <- inspect_stack ;;
    match st !! distance_to_setup_function with
    | Some record => ret (function record)
    | None => raise (mk_exc IndexError "list index out of range")
    end).

(** The closure [tests_registrar] that [expect] returns, with the two
    variables it captures. *)
Definition tests_registrar (s : stream) (test_name : string)
    (testers : list tester) : M unit :=
  def "tests_registrar" (
    for_each testers (fun t =>
      _register_tester_for_stream s (partial_on_failure_wrapper test_name t))).

(** [expect(stream)] *)
Definition expect (s : stream) : M (list tester -> M unit) :=
  def "expect" (
    test_name <- _get_name_of_expect_caller ;;
    ret (tests_registrar s test_name)).

(** ** Declaration functions

    [register] receives functions written by the user of the library.  A
    declaration function attaches testers to streams through [expect],
    may call other functions that do so, and may raise. *)
Inductive stmt :=
| SExpect (s : stream) (groups : list (list tester))
    (* r = expect(s); then r called once per group, on the testers of the group *)
| SCall (name : string) (body : list stmt)
    (* a call of a function [def name(): body] *)
| SRaise (e : pyexc).
    (* raise e *)

Record pyfunction := mk_function {
  fn_name : string;          (* fn.__name__ *)
  fn_body : list stmt
}.

Fixpoint exec_stmt (c : stmt) : M unit :=
  match c with
  | SExpect s groups =>
      tests_registrar <- expect s ;;
      for_each groups tests_registrar
  | SCall name body =>
      def name
        ((fix exec_body (b : list stmt) : M unit :=
            match b with
            | [] => ret tt
            | c' :: b' => exec_stmt c' ;; exec_body b'
            end) body)
  | SRaise e => raise e
  end.

Definition exec_body (b : list stmt) : M unit := for_each b exec_stmt.

(** [fn()] *)
Definition call_function (fn : pyfunction) : M unit :=
  def (fn_name fn) (exec_body (fn_body fn)).

(** [register(function_list)]: the value returned is the dict object
    itself, that is, its identity. *)
Definition register (function_list : list pyfunction) : M obj_id :=
  def "register" (
    for_each function_list call_function ;;
    ret stream_to_testers).

(** ** Reading a list of events *)

(** The functions called from depth [d], in order. *)
Definition calls_at (d : nat) (evs : list event) : list string :=
  omap (fun e => match e with
                 | EvCall d' name => if Nat.eqb d' d then Some name else None
                 | _ => None
                 end) evs.

(** The calls of a function named [f], at any depth. *)
Definition calls_of (f : string) (evs : list event) : list nat :=
  omap (fun e => match e with
                 | EvCall d name => if String.eqb name f then Some d else None
                 | _ => None
                 end) evs.

Definition tester_calls (evs : list event) : list (string * pyval) :=
  omap (fun e => match e with EvTester n x => Some (n, x) | _ => None end) evs.

Definition notify_element_calls (evs : list event) : list (string * payload) :=
  omap (fun e => match e with EvNotifyElement n p => Some (n, p) | _ => None end) evs.

Definition notify_error_calls (evs : list event) : list (string * payload) :=
  omap (fun e => match e with EvNotifyError n p => Some (n, p) | _ => None end) evs.

(** The wrapped testers stored for a stream ([[]] for a stream that is not
    a key of the table). *)
Definition testers_of (w : World) (s : stream) : list wrapped_tester :=
  default [] (registrar_table w !! s).

(** No [raise] statement in a declaration function, nor in those it calls. *)
Fixpoint raise_free (c : stmt) : bool :=
  match c with
  | SExpect _ _ => true
  | SCall _ body => forallb raise_free body
  | SRaise _ => false
  end.

Definition fn_raise_free (fn : pyfunction) : bool :=
  forallb raise_free (fn_body fn).

(** The table only grows: every key stays, and the list under it is
    extended at its end. *)
Definition table_grows (d d' : gmap stream (list wrapped_tester)) : Prop :=
  forall s l, d !! s = Some l -> exists l', d' !! s = Some (l ++ l').

(** The state after one more wrapped tester has been stored for [s]. *)
Definition add_tester (s : stream) (t : wrapped_tester) (w : World) : World :=
  set_dict stream_to_testers
    (<[s := testers_of w s ++ [t]]> (registrar_table w)) w.

Definition add_testers (s : stream) (l : list wrapped_tester) (w : World) : World :=
  fold_left (fun w' t => add_tester s t w') l w.

(** An event that is not a call made from a depth below [d]. *)
Definition at_least (d : nat) (e : event) : Prop :=
  match e with
  | EvCall d' _ => d <= d'
  | _ => True
  end.

(** What every computation of the module keeps: the stack and the
    [integrations] module are left as they were found, the table has only
    grown, and all calls were made from the depth of the start or deeper. *)
Definition disciplined {A} (m : M A) : Prop :=
  forall w,
    stack (final (m w)) = stack w /\
    integrations (final (m w)) = integrations w /\
    table_grows (registrar_table w) (registrar_table (final (m w))) /\
    Forall (at_least (length (stack w))) (events (m w)).

(** The table is never shrunk by [m]. *)
Definition never_shrinks {A} (m : M A) : Prop :=
  forall w, table_grows (registrar_table w) (registrar_table (final (m w))).

(** The events every run of the wrapper starts with, up to the call of the
    tester. *)
Definition wrapper_called (w : World) : list event :=
  [EvCall (length (stack w)) "_on_failure_wrapper"].

Definition wrapper_tested (t : tester) (x : pyval) (w : World) : list event :=
  [EvCall (length (stack w)) "_on_failure_wrapper";
   EvCall (S (length (stack w))) "_make_message_payload";
   EvTester (tester_name t) x].

(** Modelled from the spec: the delivery of one emitted element by the
    reactive runtime, which is not part of this file.  The spec has the
    testers of a stream run in registration order for each emitted
    element; the loop below walks the stored list from its first wrapped
    tester to its last. *)
Definition deliver (s : stream) (x : pyval) : M unit :=
  w <- get_world ;;
  for_each (testers_of w s) (fun p => call_wrapped p x).

(** ** Sample data *)

Definition is_positive : tester :=
  mk_tester "is_positive" (fun v =>
    match v with
    | VInt z => Return (VBool (0 <? z)%Z)
    | _ => Raise (mk_exc (OtherException "TypeError") "unorderable types")
    end).

Definition always_true : tester :=
  mk_tester "always_true" (fun _ => Return (VBool true)).

Definition returns_none : tester :=
  mk_tester "returns_none" (fun _ => Return VNone).

Definition interrupted : tester :=
  mk_tester "interrupted" (fun _ => Raise (mk_exc KeyboardInterrupt "")).

Definition quiet_integrations : integrations_module :=
  {| registered_integrations :=
       {[ "pscheck_numbers" := {[ "test_description" := VStr "numbers are positive" ]} ]};
     notify_element_raises := fun _ _ => None;
     notify_error_raises := fun _ _ => None |}.

(** An integration whose element notification fails with [e]. *)
Definition failing_integrations (e : pyexc) : integrations_module :=
  {| registered_integrations := registered_integrations quiet_integrations;
     notify_element_raises := fun _ _ => Some e;
     notify_error_raises := fun _ _ => None |}.

(** The state after [import pysellus.registrar], at module level. *)
Definition world_with (i : integrations_module) : World :=
  {| dict_store := fun _ => ∅;
     integrations := i;
     stack := [frame_of "<module>"] |}.

Definition sample_world : World := world_with quiet_integrations.

(** [def pscheck_numbers(): expect(numbers)(is_positive, always_true)]
    for a stream [numbers]. *)
Definition numbers : stream := 5%positive.

Definition pscheck_numbers : pyfunction :=
  mk_function "pscheck_numbers" [SExpect numbers [[is_positive; always_true]]].

(** A declaration function that fails before it declares anything. *)
Definition pscheck_broken : pyfunction :=
  mk_function "pscheck_broken"
    [SRaise (mk_exc (OtherException "RuntimeError") "no such device")].

(** A state in which [numbers] already has a tester. *)
Definition world_with_tester : World :=
  {| dict_store := fun _ =>
       {[ numbers := [partial_on_failure_wrapper "pscheck_numbers" returns_none] ]};
     integrations := quiet_integrations;
     stack := [frame_of "<module>"] |}.

(** The same state with another content of
    [integrations.registered_integrations]. *)
Definition with_registry (registry : gmap string (gmap string pyval))
    (w : World) : World :=
  {| dict_store := dict_store w;
     integrations :=
       {| registered_integrations := registry;
          notify_element_raises := notify_element_raises (integrations w);
          notify_error_raises := notify_error_raises (integrations w) |};
     stack := stack w |}.

(** The same state with another [integrations] module. *)
Definition set_integrations (i : integrations_module) (w : World) : World :=
  {| dict_store := dict_store w; integrations := i; stack := stack w |}.

(** A computation that neither reads nor writes the [integrations]
    module: run with another module in place, it gives the same result and
    events and the same final state, that module apart. *)
Definition ignores_integrations {A} (m : M A) : Prop :=
  forall i w,
    m (set_integrations i w) =
      mk_run (result (m w)) (set_integrations i (final (m w))) (events (m w)).

(** [def name(): expect(s)(t1, ..., tn)] *)
Definition declaration (s : stream) (spec : string * list tester) : pyfunction :=
  mk_function (fst spec) [SExpect s [snd spec]].

(** The wrapped testers that a list of such declarations stores, in order. *)
Definition declared (specs : list (string * list tester)) : list wrapped_tester :=
  concat (map (fun spec => map (partial_on_failure_wrapper (fst spec)) (snd spec)) specs).

(** A registry whose entry for [pscheck_numbers] has no description, and
    an integration whose error notification fails with [e]. *)
Definition undescribed_integrations : integrations_module :=
  {| registered_integrations := {[ "pscheck_numbers" := ∅ ]};
     notify_element_raises := fun _ _ => None;
     notify_error_raises := fun _ _ => None |}.

Definition unreachable_integrations (e : pyexc) : integrations_module :=
  {| registered_integrations := registered_integrations quiet_integrations;
     notify_element_raises := fun _ _ => None;
     notify_error_raises := fun _ _ => Some e |}.

(** A stored wrapped tester whose call on [x] comes back: the registry
    has a description for its correlation name, the notification entry
    points return for that name, and the tester raises, if it does, an
    instance of [Exception]. *)
Definition reportable (w : World) (x : pyval) (p : wrapped_tester) : Prop :=
  (exists entry desc,
      registered_integrations (integrations w) !! p_test_name p = Some entry /\
      entry !! "test_description" = Some desc) /\
  (forall e, tester_call (p_tester p) x = Raise e -> is_Exception (exc_type e) = true) /\
  (forall q, notify_element_raises (integrations w) (p_test_name p) q = None) /\
  (forall q, notify_error_raises (integrations w) (p_test_name p) q = None).

(** ** Helper lemmas *)

Lemma calls_at_app d l1 l2 : calls_at d (l1 ++ l2) = calls_at d l1 ++ calls_at d l2.
Proof. apply omap_app. Qed.

Ltac py_unfold :=
  repeat (progress unfold _on_failure_wrapper, call_wrapped, _make_message_payload,
            lookup_test_description, getitem, def, in_frame, bind,
            try_except_Exception, ret, raise, get_world, inspect_stack,
            call_tester, notify_element, notify_error, push_frame, pop_frame).

Ltac py_simpl :=
  cbn [result final events stack integrations dict_store app length tail negb
       p_test_name p_tester].

(** *** The runs of [_on_failure_wrapper], case by case *)

Ltac wrapper_start w :=
  unfold wrapper_called, wrapper_tested; destruct w as [ds i st];
  cbn [stack integrations]; intros.

Lemma wrapper_run_no_entry n t x w :
  registered_integrations (integrations w) !! n = None ->
  _on_failure_wrapper n t x w =
    mk_run (Raise (mk_exc KeyError n)) w (wrapper_called w).
Proof.
  wrapper_start w. py_unfold. py_simpl. rewrite H. reflexivity.
Qed.

Lemma wrapper_run_no_description n t x w entry :
  registered_integrations (integrations w) !! n = Some entry ->
  entry !! "test_description" = None ->
  _on_failure_wrapper n t x w =
    mk_run (Raise (mk_exc KeyError "test_description")) w (wrapper_called w).
Proof.
  wrapper_start w. py_unfold. py_simpl. rewrite H. py_simpl. rewrite H0.
  reflexivity.
Qed.

Lemma wrapper_run_truthy n t x w entry desc v :
  registered_integrations (integrations w) !! n = Some entry ->
  entry !! "test_description" = Some desc ->
  tester_call t x = Return v -> truthy v = true ->
  _on_failure_wrapper n t x w = mk_run (Return tt) w (wrapper_tested t x w).
Proof.
  wrapper_start w. py_unfold. py_simpl. rewrite H. py_simpl. rewrite H0.
  py_simpl. rewrite H1. py_simpl. rewrite H2. reflexivity.
Qed.

Lemma wrapper_run_falsy n t x w entry desc v :
  registered_integrations (integrations w) !! n = Some entry ->
  entry !! "test_description" = Some desc ->
  tester_call t x = Return v -> truthy v = false ->
  let p := message_payload desc (tester_name t) x in
  _on_failure_wrapper n t x w =
    match notify_element_raises (integrations w) n p with
    | None => mk_run (Return tt) w (wrapper_tested t x w ++ [EvNotifyElement n p])
    | Some e =>
        if is_Exception (exc_type e) then
          mk_run (outcome_of (notify_error_raises (integrations w) n
                                (<["error" := VExc e]> p)))
                 w (wrapper_tested t x w ++
                    [EvNotifyElement n p; EvNotifyError n (<["error" := VExc e]> p)])
        else mk_run (Raise e) w (wrapper_tested t x w ++ [EvNotifyElement n p])
    end.
Proof.
  wrapper_start w. py_unfold. py_simpl. rewrite H. py_simpl. rewrite H0.
  py_simpl. rewrite H1. py_simpl. rewrite H2. py_simpl.
  destruct (notify_element_raises i n _) as [e| ]; [ | reflexivity ].
  cbn [outcome_of]. destruct (is_Exception (exc_type e)); reflexivity.
Qed.

Lemma wrapper_run_raise n t x w entry desc e :
  registered_integrations (integrations w) !! n = Some entry ->
  entry !! "test_description" = Some desc ->
  tester_call t x = Raise e ->
  let p := message_payload desc (tester_name t) x in
  _on_failure_wrapper n t x w =
    if is_Exception (exc_type e) then
      mk_run (outcome_of (notify_error_raises (integrations w) n
                            (<["error" := VExc e]> p)))
             w (wrapper_tested t x w ++ [EvNotifyError n (<["error" := VExc e]> p)])
    else mk_run (Raise e) w (wrapper_tested t x w).
Proof.
  wrapper_start w. py_unfold. py_simpl. rewrite H. py_simpl. rewrite H0.
  py_simpl. rewrite H1. py_simpl.
  destruct (is_Exception (exc_type e)); reflexivity.
Qed.

Lemma payload_error_field (p : payload) (e : pyexc) :
  (<["error" := VExc e]> p) !! "error" = Some (VExc e).
Proof. apply lookup_insert_eq. Qed.

Lemma payload_fields desc name x :
  message_payload desc name x !! "test_name" = Some desc /\
  message_payload desc name x !! "expect_function" = Some (VStr name) /\
  message_payload desc name x !! "element" = Some x /\
  message_payload desc name x !! "error" = None.
Proof.
  unfold message_payload. split_and!.
  - apply lookup_insert_eq.
  - rewrite lookup_insert_ne by discriminate. apply lookup_insert_eq.
  - do 2 (rewrite lookup_insert_ne by discriminate). apply lookup_insert_eq.
  - do 3 (rewrite lookup_insert_ne by discriminate). apply lookup_empty.
Qed.

(** ** The wrapped adapter *)

(** C1, as stated, does not hold: a tester that raises an exception which
    is not an instance of [Exception] (here [KeyboardInterrupt]) is not
    caught by [except Exception]; the exception leaves the wrapper and the
    error-notification entry point is not called. *)
Lemma tester_raise_not_always_caught :
  ~ (forall n t x w entry desc e,
       registered_integrations (integrations w) !! n = Some entry ->
       entry !! "test_description" = Some desc ->
       tester_call t x = Raise e ->
       notify_error_raises (integrations w) n
         (<["error" := VExc e]> (message_payload desc (tester_name t) x)) = None ->
       let r := _on_failure_wrapper n t x w in
       result r = Return tt /\
       notify_error_calls (events r) =
         [(n, <["error" := VExc e]> (message_payload desc (tester_name t) x))] /\
       notify_element_calls (events r) = []).
Proof.
  intros H.
  destruct (H "pscheck_numbers" interrupted (VInt 1) sample_world
              {[ "test_description" := VStr "numbers are positive" ]}
              (VStr "numbers are positive") (mk_exc KeyboardInterrupt "")
              eq_refl eq_refl eq_refl eq_refl) as [Hr _].
  vm_compute in Hr. discriminate Hr.
Qed.

(** C1 (amended): for every tester that raises an instance of [Exception]
    on an element, when the registry lookup for the correlation name
    succeeds and the error notification returns, the error-notification
    entry point is called exactly once, with the payload whose ['error']
    field is the raised exception, the element-notification entry point is
    not called, and the wrapper returns normally. *)
Theorem tester_exception_reported_once n t x w entry desc e :
  registered_integrations (integrations w) !! n = Some entry ->
  entry !! "test_description" = Some desc ->
  tester_call t x = Raise e ->
  is_Exception (exc_type e) = true ->
  notify_error_raises (integrations w) n
    (<["error" := VExc e]> (message_payload desc (tester_name t) x)) = None ->
  let r := _on_failure_wrapper n t x w in
  let p := <["error" := VExc e]> (message_payload desc (tester_name t) x) in
  result r = Return tt /\
  notify_error_calls (events r) = [(n, p)] /\
  p !! "error" = Some (VExc e) /\
  notify_element_calls (events r) = [].
Proof.
  intros He Hd Hx Hexc Hn r p. subst r p.
  rewrite (wrapper_run_raise n t x w entry desc e He Hd Hx).
  rewrite Hexc, Hn. cbn [result events].
  split_and!;
    [ reflexivity | reflexivity | apply payload_error_field | reflexivity ].
Qed.

(** [is_positive] raises [TypeError] on a string. *)
Lemma tester_exception_reported_once_witness :
  let r := _on_failure_wrapper "pscheck_numbers" is_positive (VStr "a") sample_world in
  let p := <["error" := VExc (mk_exc (OtherException "TypeError") "unorderable types")]>
             (message_payload (VStr "numbers are positive") "is_positive" (VStr "a")) in
  result r = Return tt /\
  notify_error_calls (events r) = [("pscheck_numbers", p)] /\
  p !! "error" = Some (VExc (mk_exc (OtherException "TypeError") "unorderable types")) /\
  notify_element_calls (events r) = [].
Proof.
  apply (tester_exception_reported_once "pscheck_numbers" is_positive (VStr "a")
           sample_world {[ "test_description" := VStr "numbers are positive" ]}
           (VStr "numbers are positive")
           (mk_exc (OtherException "TypeError") "unorderable types"));
    reflexivity.
Defined.

(** C2: for every tester that returns [False] on an element, when the
    registry lookup for the correlation name succeeds and the notification
    returns, the element-notification entry point is called exactly once,
    with a payload that holds the name of the tester under
    ['expect_function'] and the element under ['element'], and the
    error-notification entry point is not called. *)
Theorem false_result_notifies_element_once n t x w entry desc :
  registered_integrations (integrations w) !! n = Some entry ->
  entry !! "test_description" = Some desc ->
  tester_call t x = Return (VBool false) ->
  notify_element_raises (integrations w) n
    (message_payload desc (tester_name t) x) = None ->
  let r := _on_failure_wrapper n t x w in
  let p := message_payload desc (tester_name t) x in
  result r = Return tt /\
  notify_element_calls (events r) = [(n, p)] /\
  p !! "expect_function" = Some (VStr (tester_name t)) /\
  p !! "element" = Some x /\
  notify_error_calls (events r) = [].
Proof.
  intros He Hd Hx Hn r p. subst r p.
  rewrite (wrapper_run_falsy n t x w entry desc (VBool false) He Hd Hx eq_refl).
  cbn zeta. rewrite Hn. cbn [result events].
  destruct (payload_fields desc (tester_name t) x) as (_ & Hf & Hel & _).
  split_and!; [ reflexivity | reflexivity | exact Hf | exact Hel | reflexivity ].
Qed.

(** [is_positive] returns [False] on [-3]. *)
Lemma false_result_notifies_element_once_witness :
  let r := _on_failure_wrapper "pscheck_numbers" is_positive (VInt (-3)) sample_world in
  let p := message_payload (VStr "numbers are positive") "is_positive" (VInt (-3)) in
  result r = Return tt /\
  notify_element_calls (events r) = [("pscheck_numbers", p)] /\
  p !! "expect_function" = Some (VStr "is_positive") /\
  p !! "element" = Some (VInt (-3)) /\
  notify_error_calls (events r) = [].
Proof.
  apply (false_result_notifies_element_once "pscheck_numbers" is_positive (VInt (-3))
           sample_world {[ "test_description" := VStr "numbers are positive" ]}
           (VStr "numbers are positive"));
    reflexivity.
Defined.

(** C5: when the correlation name has no entry in the integration
    registry, the [KeyError] of the lookup leaves the wrapper: the tester
    is not called and neither notification entry point is, although
    [KeyError] is an instance of [Exception] -- the lookup is made before
    the [try] block is entered. *)
Theorem missing_registry_entry_propagates n t x w :
  registered_integrations (integrations w) !! n = None ->
  let r := _on_failure_wrapper n t x w in
  result r = Raise (mk_exc KeyError n) /\
  is_Exception KeyError = true /\
  tester_calls (events r) = [] /\
  notify_element_calls (events r) = [] /\
  notify_error_calls (events r) = [].
Proof.
  intros He r. subst r. rewrite (wrapper_run_no_entry n t x w He).
  split_and!; reflexivity.
Qed.

(** The sample registry has no entry [pscheck_unknown]. *)
Lemma missing_registry_entry_propagates_witness :
  let r := _on_failure_wrapper "pscheck_unknown" is_positive (VInt (-3)) sample_world in
  result r = Raise (mk_exc KeyError "pscheck_unknown") /\
  is_Exception KeyError = true /\
  tester_calls (events r) = [] /\
  notify_element_calls (events r) = [] /\
  notify_error_calls (events r) = [].
Proof.
  apply (missing_registry_entry_propagates "pscheck_unknown" is_positive (VInt (-3))
           sample_world).
  reflexivity.
Defined.

(** C8, as stated, does not hold.  For an element on which the tester
    succeeds the payload is built all the same (first part), and the
    registry is read: with the entry removed from the registry the same
    call raises [KeyError] (second part). *)
Lemma payload_not_built_lazily :
  ~ (forall n t x w v,
       tester_call t x = Return v -> truthy v = true ->
       calls_of "_make_message_payload" (events (_on_failure_wrapper n t x w)) = [])
  /\
  ~ (forall n t x w v registry,
       tester_call t x = Return v -> truthy v = true ->
       result (_on_failure_wrapper n t x (with_registry registry w)) =
       result (_on_failure_wrapper n t x w)).
Proof.
  split; intros H.
  - specialize (H "pscheck_numbers" always_true (VInt 1) sample_world (VBool true)
                  eq_refl eq_refl).
    vm_compute in H. discriminate H.
  - specialize (H "pscheck_numbers" always_true (VInt 1) sample_world (VBool true) ∅
                  eq_refl eq_refl).
    vm_compute in H. discriminate H.
Qed.

(** The payload of a call whose registry lookup succeeds. *)
Lemma payload_built_when_described n t x w entry desc :
  registered_integrations (integrations w) !! n = Some entry ->
  entry !! "test_description" = Some desc ->
  let r := _on_failure_wrapper n t x w in
  calls_of "_make_message_payload" (events r) = [S (length (stack w))] /\
  (exists rest,
      events r = [EvCall (length (stack w)) "_on_failure_wrapper";
                  EvCall (S (length (stack w))) "_make_message_payload";
                  EvTester (tester_name t) x] ++ rest /\
      calls_of "_make_message_payload" rest = []) /\
  (forall v, tester_call t x = Return v -> truthy v = true ->
     result r = Return tt /\
     notify_element_calls (events r) = [] /\
     notify_error_calls (events r) = []).
Proof.
  intros He Hd r. subst r.
  assert (Hshape : exists rest,
             events (_on_failure_wrapper n t x w) = wrapper_tested t x w ++ rest /\
             calls_of "_make_message_payload" rest = []).
  { destruct (tester_call t x) as [v|e] eqn:Hx.
    - destruct (truthy v) eqn:Hv.
      + rewrite (wrapper_run_truthy n t x w entry desc v He Hd Hx Hv).
        exists []. split; [ symmetry; apply app_nil_r | reflexivity ].
      + rewrite (wrapper_run_falsy n t x w entry desc v He Hd Hx Hv). cbn zeta.
        destruct (notify_element_raises _ _ _) as [e| ];
          [ destruct (is_Exception (exc_type e)) | ];
          eexists; (split; [ reflexivity | reflexivity ]).
    - rewrite (wrapper_run_raise n t x w entry desc e He Hd Hx). cbn zeta.
      destruct (is_Exception (exc_type e)).
      + eexists; (split; [ reflexivity | reflexivity ]).
      + exists []. split; [ symmetry; apply app_nil_r | reflexivity ]. }
  destruct Hshape as (rest & Hev & Hrest).
  split_and!.
  - rewrite Hev. unfold calls_of in *. rewrite omap_app, Hrest. reflexivity.
  - exists rest. split; assumption.
  - intros v Hx Hv. rewrite (wrapper_run_truthy n t x w entry desc v He Hd Hx Hv).
    split_and!; reflexivity.
Qed.

(** C8 (amended): the registry is read on every call of the wrapper, and
    the payload is built on every call whose registry lookup succeeds,
    once, before the tester is called and whatever the tester does; for an
    element on which the tester succeeds the wrapper then returns without
    calling either notification entry point.  When the lookup fails (no
    entry for the correlation name, or no ['test_description'] in the
    entry), the wrapper raises [KeyError]: no payload is built, and
    neither the tester nor a notification entry point is called. *)
Theorem payload_built_before_tester n t x w :
  let r := _on_failure_wrapper n t x w in
  (forall entry desc,
     registered_integrations (integrations w) !! n = Some entry ->
     entry !! "test_description" = Some desc ->
     calls_of "_make_message_payload" (events r) = [S (length (stack w))] /\
     (exists rest,
         events r = [EvCall (length (stack w)) "_on_failure_wrapper";
                     EvCall (S (length (stack w))) "_make_message_payload";
                     EvTester (tester_name t) x] ++ rest /\
         calls_of "_make_message_payload" rest = []) /\
     (forall v, tester_call t x = Return v -> truthy v = true ->
        result r = Return tt /\
        notify_element_calls (events r) = [] /\
        notify_error_calls (events r) = [])) /\
  (registered_integrations (integrations w) !! n = None ->
     result r = Raise (mk_exc KeyError n) /\
     calls_of "_make_message_payload" (events r) = [] /\
     tester_calls (events r) = [] /\
     notify_element_calls (events r) = [] /\
     notify_error_calls (events r) = []) /\
  (forall entry,
     registered_integrations (integrations w) !! n = Some entry ->
     entry !! "test_description" = None ->
     result r = Raise (mk_exc KeyError "test_description") /\
     calls_of "_make_message_payload" (events r) = [] /\
     tester_calls (events r) = [] /\
     notify_element_calls (events r) = [] /\
     notify_error_calls (events r) = []).
Proof.
  intros r. subst r. split_and!.
  - intros entry desc He Hd. apply (payload_built_when_described n t x w entry desc He Hd).
  - intros He. rewrite (wrapper_run_no_entry n t x w He). split_and!; reflexivity.
  - intros entry He Hd. rewrite (wrapper_run_no_description n t x w entry He Hd).
    split_and!; reflexivity.
Qed.

(** [always_true] succeeds on [1]; the payload was built at depth [2]. *)
Lemma payload_built_before_tester_witness :
  let r := _on_failure_wrapper "pscheck_numbers" always_true (VInt 1) sample_world in
  calls_of "_make_message_payload" (events r) = [2] /\
  (exists rest,
      events r = [EvCall 1 "_on_failure_wrapper"; EvCall 2 "_make_message_payload";
                  EvTester "always_true" (VInt 1)] ++ rest /\
      calls_of "_make_message_payload" rest = []) /\
  (forall v, tester_call always_true (VInt 1) = Return v -> truthy v = true ->
     result r = Return tt /\
     notify_element_calls (events r) = [] /\
     notify_error_calls (events r) = []).
Proof.
  destruct (payload_built_before_tester "pscheck_numbers" always_true (VInt 1)
              sample_world) as [Hbuilt _].
  apply (Hbuilt {[ "test_description" := VStr "numbers are positive" ]}
                (VStr "numbers are positive"));
    reflexivity.
Defined.

(** C9: the wrapper judges a result by its truth value.  When the tester,
    called inside the wrapper, returns a falsy value (such as [None], [0],
    the empty string or the empty list), the element-notification entry
    point is called once, and the whole run is the run of a tester of the
    same name that returns [False]; when it returns a truthy value, the
    wrapper returns and calls neither notification entry point. *)
Theorem failure_is_judged_by_truthiness n t x w entry desc v :
  registered_integrations (integrations w) !! n = Some entry ->
  entry !! "test_description" = Some desc ->
  tester_call t x = Return v ->
  let r := _on_failure_wrapper n t x w in
  (truthy v = false ->
     notify_element_calls (events r) =
       [(n, message_payload desc (tester_name t) x)] /\
     forall t', tester_name t' = tester_name t ->
                tester_call t' x = Return (VBool false) ->
                _on_failure_wrapper n t' x w = r) /\
  (truthy v = true ->
     result r = Return tt /\
     notify_element_calls (events r) = [] /\
     notify_error_calls (events r) = []) /\
  truthy VNone = false /\ truthy (VInt 0) = false /\
  truthy (VStr "") = false /\ truthy (VList []) = false /\
  truthy (VBool false) = false.
Proof.
  intros He Hd Hx r. subst r. split_and!; try reflexivity.
  - intros Hv. split.
    + rewrite (wrapper_run_falsy n t x w entry desc v He Hd Hx Hv). cbn zeta.
      destruct (notify_element_raises _ _ _) as [e| ];
        [ destruct (is_Exception (exc_type e)) | ]; reflexivity.
    + intros t' Hname Hx'.
      rewrite (wrapper_run_falsy n t x w entry desc v He Hd Hx Hv).
      rewrite (wrapper_run_falsy n t' x w entry desc (VBool false) He Hd Hx' eq_refl).
      unfold wrapper_tested. rewrite Hname. reflexivity.
  - intros Hv. rewrite (wrapper_run_truthy n t x w entry desc v He Hd Hx Hv).
    split_and!; reflexivity.
Qed.

(** [returns_none] returns [None], which is falsy. *)
Lemma failure_is_judged_by_truthiness_witness :
  let r := _on_failure_wrapper "pscheck_numbers" returns_none (VInt 7) sample_world in
  (truthy VNone = false ->
     notify_element_calls (events r) =
       [("pscheck_numbers",
         message_payload (VStr "numbers are positive") "returns_none" (VInt 7))] /\
     forall t', tester_name t' = "returns_none" ->
                tester_call t' (VInt 7) = Return (VBool false) ->
                _on_failure_wrapper "pscheck_numbers" t' (VInt 7) sample_world = r) /\
  (truthy VNone = true ->
     result r = Return tt /\
     notify_element_calls (events r) = [] /\
     notify_error_calls (events r) = []) /\
  truthy VNone = false /\ truthy (VInt 0) = false /\
  truthy (VStr "") = false /\ truthy (VList []) = false /\
  truthy (VBool false) = false.
Proof.
  apply (failure_is_judged_by_truthiness "pscheck_numbers" returns_none (VInt 7)
           sample_world {[ "test_description" := VStr "numbers are positive" ]}
           (VStr "numbers are positive") VNone);
    reflexivity.
Defined.

(** C10, as stated, does not hold: when the element notification raises
    an exception that is not an instance of [Exception] (here
    [KeyboardInterrupt]), the handler does not take it and the
    error-notification entry point is not called. *)
Lemma notification_raise_not_always_caught :
  ~ (forall n t x w entry desc v e,
       registered_integrations (integrations w) !! n = Some entry ->
       entry !! "test_description" = Some desc ->
       tester_call t x = Return v -> truthy v = false ->
       notify_element_raises (integrations w) n
         (message_payload desc (tester_name t) x) = Some e ->
       notify_error_calls (events (_on_failure_wrapper n t x w)) =
         [(n, <["error" := VExc e]> (message_payload desc (tester_name t) x))]).
Proof.
  intros H.
  specialize (H "pscheck_numbers" is_positive (VInt (-3))
                (world_with (failing_integrations (mk_exc KeyboardInterrupt "")))
                {[ "test_description" := VStr "numbers are positive" ]}
                (VStr "numbers are positive") (VBool false)
                (mk_exc KeyboardInterrupt "") eq_refl eq_refl eq_refl eq_refl eq_refl).
  apply (f_equal (@length _)) in H. vm_compute in H. discriminate H.
Qed.

(** C10 (amended): when the tester returns a falsy value and the element
    notification itself raises an instance of [Exception], the handler of
    the wrapper takes that exception: the error-notification entry point is
    called, once, with the payload whose ['error'] field is the exception
    of the notification call, and the outcome of the wrapper is the
    outcome of that call. *)
Theorem failed_notification_reported_as_error n t x w entry desc v e :
  registered_integrations (integrations w) !! n = Some entry ->
  entry !! "test_description" = Some desc ->
  tester_call t x = Return v -> truthy v = false ->
  notify_element_raises (integrations w) n
    (message_payload desc (tester_name t) x) = Some e ->
  is_Exception (exc_type e) = true ->
  let r := _on_failure_wrapper n t x w in
  let p := message_payload desc (tester_name t) x in
  notify_element_calls (events r) = [(n, p)] /\
  notify_error_calls (events r) = [(n, <["error" := VExc e]> p)] /\
  (<["error" := VExc e]> p) !! "error" = Some (VExc e) /\
  tester_calls (events r) = [(tester_name t, x)] /\
  result r = outcome_of (notify_error_raises (integrations w) n
                           (<["error" := VExc e]> p)).
Proof.
  intros He Hd Hx Hv Hn Hexc r p. subst r p.
  rewrite (wrapper_run_falsy n t x w entry desc v He Hd Hx Hv). cbn zeta.
  rewrite Hn, Hexc. cbn [result events].
  split_and!;
    [ reflexivity | reflexivity | apply payload_error_field
    | reflexivity | reflexivity ].
Qed.

(** An integration whose element notification fails with [ConnectionError]. *)
Lemma failed_notification_reported_as_error_witness :
  let e := mk_exc (OtherException "ConnectionError") "refused" in
  let r := _on_failure_wrapper "pscheck_numbers" is_positive (VInt (-3))
             (world_with (failing_integrations e)) in
  let p := message_payload (VStr "numbers are positive") "is_positive" (VInt (-3)) in
  notify_element_calls (events r) = [("pscheck_numbers", p)] /\
  notify_error_calls (events r) = [("pscheck_numbers", <["error" := VExc e]> p)] /\
  (<["error" := VExc e]> p) !! "error" = Some (VExc e) /\
  tester_calls (events r) = [("is_positive", VInt (-3))] /\
  result r = Return tt.
Proof.
  apply (failed_notification_reported_as_error "pscheck_numbers" is_positive (VInt (-3))
           (world_with (failing_integrations
                          (mk_exc (OtherException "ConnectionError") "refused")))
           {[ "test_description" := VStr "numbers are positive" ]}
           (VStr "numbers are positive") (VBool false)
           (mk_exc (OtherException "ConnectionError") "refused"));
    reflexivity.
Defined.

(** ** Registration *)

Lemma pop_push fr w : pop_frame (push_frame fr w) = w.
Proof. destruct w; reflexivity. Qed.

Lemma table_grows_refl d : table_grows d d.
Proof. intros s l H. exists []. rewrite app_nil_r. exact H. Qed.

Lemma table_grows_trans d1 d2 d3 :
  table_grows d1 d2 -> table_grows d2 d3 -> table_grows d1 d3.
Proof.
  intros H12 H23 s l H. destruct (H12 s l H) as [l1 H1].
  destruct (H23 s _ H1) as [l2 H2]. exists (l1 ++ l2).
  rewrite app_assoc. exact H2.
Qed.

Lemma at_least_le d d' e : d <= d' -> at_least d' e -> at_least d e.
Proof. destruct e; simpl; lia. Qed.

Lemma calls_at_deeper d evs : Forall (at_least (S d)) evs -> calls_at d evs = [].
Proof.
  induction 1 as [|e evs He _ IH]; [reflexivity|].
  unfold calls_at in *. cbn [omap list_omap]. rewrite IH.
  destruct e as [d' name| | | ]; try reflexivity.
  simpl in He. destruct (Nat.eqb_spec d' d); [lia|reflexivity].
Qed.

(** *** [_register_tester_for_stream] and [tests_registrar] *)

Lemma testers_of_add_tester s t w :
  testers_of (add_tester s t w) s = testers_of w s ++ [t].
Proof.
  unfold testers_of, registrar_table, add_tester, set_dict. cbn.
  rewrite lookup_insert_eq. reflexivity.
Qed.

Lemma testers_of_add_tester_ne s s' t w :
  s' <> s -> registrar_table (add_tester s t w) !! s' = registrar_table w !! s'.
Proof.
  intros Hne. unfold testers_of, registrar_table, add_tester, set_dict. cbn.
  apply lookup_insert_ne. congruence.
Qed.

Lemma add_tester_grows s t w :
  table_grows (registrar_table w) (registrar_table (add_tester s t w)).
Proof.
  intros s' l Hl. destruct (decide (s' = s)) as [->|Hne].
  - exists [t]. unfold registrar_table, add_tester, set_dict, testers_of in *. cbn.
    rewrite lookup_insert_eq. unfold registrar_table. rewrite Hl. reflexivity.
  - exists []. rewrite app_nil_r, testers_of_add_tester_ne by assumption. exact Hl.
Qed.

Lemma register_tester_run s t w :
  _register_tester_for_stream s t w =
    mk_run (Return tt) (add_tester s t w)
           [EvCall (length (stack w)) "_register_tester_for_stream"].
Proof.
  destruct w as [ds i st].
  unfold _register_tester_for_stream, def, in_frame, push_frame, pop_frame,
    add_tester, testers_of, registrar_table, set_dict.
  cbn [dict_store integrations stack tail length].
  destruct (ds stream_to_testers !! s) as [l| ]; reflexivity.
Qed.

Lemma add_testers_stack s l w : stack (add_testers s l w) = stack w.
Proof.
  unfold add_testers. revert w.
  induction l as [|t l IH]; intros w; [reflexivity|].
  cbn [fold_left]. rewrite IH. reflexivity.
Qed.

Lemma add_testers_integrations s l w :
  integrations (add_testers s l w) = integrations w.
Proof.
  unfold add_testers. revert w.
  induction l as [|t l IH]; intros w; [reflexivity|].
  cbn [fold_left]. rewrite IH. reflexivity.
Qed.

Lemma testers_of_add_testers s l w :
  testers_of (add_testers s l w) s = testers_of w s ++ l.
Proof.
  revert w. induction l as [|t l IH]; intros w.
  - cbn. rewrite app_nil_r. reflexivity.
  - cbn [add_testers fold_left]. fold (add_testers s l (add_tester s t w)).
    rewrite IH, testers_of_add_tester, <- app_assoc. reflexivity.
Qed.

Lemma add_testers_other s s' l w :
  s' <> s -> registrar_table (add_testers s l w) !! s' = registrar_table w !! s'.
Proof.
  intros Hne. revert w. induction l as [|t l IH]; intros w; [reflexivity|].
  cbn [add_testers fold_left]. fold (add_testers s l (add_tester s t w)).
  rewrite IH. apply testers_of_add_tester_ne. exact Hne.
Qed.

Lemma add_testers_grows s l w :
  table_grows (registrar_table w) (registrar_table (add_testers s l w)).
Proof.
  revert w. induction l as [|t l IH]; intros w; [apply table_grows_refl|].
  cbn [add_testers fold_left]. fold (add_testers s l (add_tester s t w)).
  eapply table_grows_trans; [apply add_tester_grows|apply IH].
Qed.

Lemma add_testers_push s l fr w :
  pop_frame (add_testers s l (push_frame fr w)) = add_testers s l w.
Proof.
  revert w. induction l as [|t l IH]; intros w; [apply pop_push|].
  cbn [add_testers fold_left].
  fold (add_testers s l (add_tester s t (push_frame fr w))).
  fold (add_testers s l (add_tester s t w)).
  change (add_tester s t (push_frame fr w)) with (push_frame fr (add_tester s t w)).
  apply IH.
Qed.

Lemma for_each_register_run s (g : tester -> wrapped_tester) ts w :
  for_each ts (fun t => _register_tester_for_stream s (g t)) w =
    mk_run (Return tt) (add_testers s (map g ts) w)
           (map (fun _ => EvCall (length (stack w)) "_register_tester_for_stream") ts).
Proof.
  revert w. induction ts as [|t ts IH]; intros w; [reflexivity|].
  cbn [for_each]. unfold bind. rewrite register_tester_run, IH.
  reflexivity.
Qed.

Lemma tests_registrar_run s n ts w :
  tests_registrar s n ts w =
    mk_run (Return tt)
           (add_testers s (map (partial_on_failure_wrapper n) ts) w)
           (EvCall (length (stack w)) "tests_registrar" ::
            map (fun _ => EvCall (S (length (stack w))) "_register_tester_for_stream") ts).
Proof.
  unfold tests_registrar, def, in_frame. rewrite for_each_register_run.
  rewrite add_testers_push. reflexivity.
Qed.

(** *** [expect] *)

Lemma expect_run s w :
  expect s w =
    match stack w with
    | caller :: _ =>
        mk_run (Return (tests_registrar s (function caller))) w
               [EvCall (length (stack w)) "expect";
                EvCall (S (length (stack w))) "_get_name_of_expect_caller"]
    | [] =>
        mk_run (Raise (mk_exc IndexError "list index out of range")) w
               [EvCall (length (stack w)) "expect";
                EvCall (S (length (stack w))) "_get_name_of_expect_caller"]
    end.
Proof.
  destruct w as [ds i [|caller st]]; reflexivity.
Qed.

(** *** What every computation keeps *)

Lemma disciplined_ret {A} (a : A) : disciplined (ret a).
Proof.
  intros w. cbn. split_and!; [reflexivity|reflexivity|apply table_grows_refl|constructor].
Qed.

Lemma disciplined_raise {A} e : disciplined (@raise A e).
Proof.
  intros w. cbn. split_and!; [reflexivity|reflexivity|apply table_grows_refl|constructor].
Qed.

Lemma disciplined_bind {A B} (m : M A) (k : A -> M B) :
  disciplined m -> (forall a, disciplined (k a)) -> disciplined (bind m k).
Proof.
  intros Hm Hk w. unfold bind.
  destruct (Hm w) as (Hs & Hi & Hg & He).
  destruct (m w) as [[a|e] w1 evs1]; cbn [final events] in *.
  - destruct (Hk a w1) as (Hs' & Hi' & Hg' & He').
    destruct (k a w1) as [r w2 evs2]; cbn [final events] in *.
    split_and!.
    + congruence.
    + congruence.
    + eapply table_grows_trans; eassumption.
    + apply Forall_app. split; [assumption|]. rewrite <- Hs. assumption.
  - split_and!; assumption.
Qed.

Lemma disciplined_for_each {A} (l : list A) (body : A -> M unit) :
  (forall x, disciplined (body x)) -> disciplined (for_each l body).
Proof.
  intros Hb. induction l as [|x l IH]; cbn [for_each].
  - apply disciplined_ret.
  - apply disciplined_bind; [apply Hb|intros _; exact IH].
Qed.

Lemma disciplined_def {A} name (body : M A) :
  disciplined body -> disciplined (def name body).
Proof.
  intros Hb w. unfold def, in_frame.
  destruct (Hb (push_frame (frame_of name) w)) as (Hs & Hi & Hg & He).
  destruct (body (push_frame (frame_of name) w)) as [r w1 evs];
    cbn [final events] in *.
  split_and!.
  - cbn [pop_frame stack]. rewrite Hs. reflexivity.
  - exact Hi.
  - exact Hg.
  - constructor; [cbn; lia|].
    eapply Forall_impl; [exact He|].
    intros e. apply at_least_le. cbn. lia.
Qed.

Lemma disciplined_tests_registrar s n ts : disciplined (tests_registrar s n ts).
Proof.
  intros w. rewrite tests_registrar_run. cbn [final events].
  split_and!.
  - apply add_testers_stack.
  - apply add_testers_integrations.
  - apply add_testers_grows.
  - constructor; [cbn; lia|]. apply Forall_map, Forall_forall.
    intros _ _. cbn. lia.
Qed.

Lemma disciplined_register_tester s t : disciplined (_register_tester_for_stream s t).
Proof.
  intros w. rewrite register_tester_run. cbn [final events].
  split_and!; [reflexivity|reflexivity|apply add_tester_grows|].
  constructor; [cbn; lia|constructor].
Qed.

Lemma disciplined_expect s : disciplined (expect s).
Proof.
  intros w. rewrite expect_run.
  destruct (stack w) as [|caller st] eqn:Hst; cbn [final events];
    (split_and!; [assumption|reflexivity|apply table_grows_refl|]);
    repeat constructor; cbn; lia.
Qed.

(** Whatever [expect] returns is a [tests_registrar] closure. *)
Lemma expect_returns_registrar s w r :
  result (expect s w) = Return r -> exists n, r = tests_registrar s n.
Proof.
  rewrite expect_run. destruct (stack w) as [|caller st]; cbn; intros H.
  - discriminate H.
  - injection H as <-. eexists. reflexivity.
Qed.

(** Induction on statements, with the statements of a called body. *)
Lemma stmt_nested_ind (P : stmt -> Prop) :
  (forall s groups, P (SExpect s groups)) ->
  (forall name body, Forall P body -> P (SCall name body)) ->
  (forall e, P (SRaise e)) ->
  forall c, P c.
Proof.
  intros Hexpect Hcall Hraise.
  fix IH 1. intros [s groups|name body|e].
  - apply Hexpect.
  - apply Hcall. induction body as [|c body IHb]; constructor; [apply IH|exact IHb].
  - apply Hraise.
Qed.

Lemma exec_stmt_call name body :
  exec_stmt (SCall name body) = def name (exec_body body).
Proof.
  cbn [exec_stmt]. f_equal. unfold exec_body.
  induction body as [|c body IH]; [reflexivity|].
  cbn [for_each]. rewrite IH. reflexivity.
Qed.

Lemma disciplined_exec_stmt c : disciplined (exec_stmt c).
Proof.
  induction c as [s groups|name body IH|e] using stmt_nested_ind.
  - cbn [exec_stmt]. intros w. unfold bind.
    pose proof (disciplined_expect s w) as (Hs & Hi & Hg & He).
    pose proof (expect_returns_registrar s w) as Hr.
    destruct (expect s w) as [[r|e] w1 evs1]; cbn [final events result] in *.
    + destruct (Hr r eq_refl) as [n ->].
      pose proof (disciplined_for_each groups (tests_registrar s n)
                    (disciplined_tests_registrar s n) w1) as (Hs' & Hi' & Hg' & He').
      destruct (for_each groups (tests_registrar s n) w1) as [r2 w2 evs2];
        cbn [final events] in *.
      split_and!.
      * congruence.
      * congruence.
      * eapply table_grows_trans; eassumption.
      * apply Forall_app. split; [assumption|]. rewrite <- Hs. assumption.
    + split_and!; assumption.
  - rewrite exec_stmt_call. apply disciplined_def. unfold exec_body.
    induction IH as [|c body Hc _ IHb]; cbn [for_each].
    + apply disciplined_ret.
    + apply disciplined_bind; [exact Hc|intros _; exact IHb].
  - apply disciplined_raise.
Qed.

Lemma disciplined_exec_body b : disciplined (exec_body b).
Proof. apply disciplined_for_each, disciplined_exec_stmt. Qed.

Lemma disciplined_call_function fn : disciplined (call_function fn).
Proof. apply disciplined_def, disciplined_exec_body. Qed.

Lemma disciplined_register fns : disciplined (register fns).
Proof.
  apply disciplined_def, disciplined_bind.
  - apply disciplined_for_each, disciplined_call_function.
  - intros _. apply disciplined_ret.
Qed.

Lemma disciplined_never_shrinks {A} (m : M A) : disciplined m -> never_shrinks m.
Proof. intros H w. apply (H w). Qed.

(** *** Results and events of calls *)

Lemma def_result {A} name (body : M A) w :
  result (def name body w) = result (body (push_frame (frame_of name) w)).
Proof.
  unfold def, in_frame. destruct (body _) as [r w1 evs]. reflexivity.
Qed.

Lemma def_events {A} name (body : M A) w :
  events (def name body w) =
    EvCall (length (stack w)) name :: events (body (push_frame (frame_of name) w)).
Proof.
  unfold def, in_frame. destruct (body _) as [r w1 evs]. reflexivity.
Qed.

Lemma def_final {A} name (body : M A) w :
  final (def name body w) = pop_frame (final (body (push_frame (frame_of name) w))).
Proof.
  unfold def, in_frame. destruct (body _) as [r w1 evs]. reflexivity.
Qed.

Lemma add_testers_app s l1 l2 w :
  add_testers s (l1 ++ l2) w = add_testers s l2 (add_testers s l1 w).
Proof. unfold add_testers. apply fold_left_app. Qed.

Lemma for_each_groups_run s n groups w :
  exists evs,
    for_each groups (tests_registrar s n) w =
      mk_run (Return tt)
             (add_testers s (concat (map (map (partial_on_failure_wrapper n)) groups)) w)
             evs.
Proof.
  revert w. induction groups as [|g groups IH]; intros w.
  - exists []. reflexivity.
  - cbn [for_each map concat]. unfold bind. rewrite tests_registrar_run.
    destruct (IH (add_testers s (map (partial_on_failure_wrapper n) g) w)) as [evs ->].
    eexists. rewrite add_testers_app. reflexivity.
Qed.

Lemma exec_expect_run s groups w caller st :
  stack w = caller :: st ->
  result (exec_stmt (SExpect s groups) w) = Return tt /\
  final (exec_stmt (SExpect s groups) w) =
    add_testers s
      (concat (map (map (partial_on_failure_wrapper (function caller))) groups)) w.
Proof.
  intros Hst. cbn [exec_stmt]. unfold bind. rewrite expect_run, Hst.
  destruct (for_each_groups_run s (function caller) groups w) as [evs ->].
  split; reflexivity.
Qed.

Lemma exec_body_returns body :
  Forall (fun c => forall w, stack w <> [] -> result (exec_stmt c w) = Return tt) body ->
  forall w, stack w <> [] -> result (exec_body body w) = Return tt.
Proof.
  unfold exec_body. induction 1 as [|c body Hc _ IH]; intros w Hw; [reflexivity|].
  cbn [for_each]. unfold bind.
  pose proof (Hc w Hw) as Hr.
  pose proof (disciplined_exec_stmt c w) as (Hs & _).
  destruct (exec_stmt c w) as [r w1 evs1]; cbn [result final] in *. subst r.
  assert (Hw1 : stack w1 <> []) by (rewrite Hs; exact Hw).
  specialize (IH w1 Hw1).
  destruct (for_each body exec_stmt w1) as [r2 w2 evs2]. exact IH.
Qed.

Lemma raise_free_returns c :
  raise_free c = true ->
  forall w, stack w <> [] -> result (exec_stmt c w) = Return tt.
Proof.
  induction c as [s groups|name body IH|e] using stmt_nested_ind;
    cbn [raise_free]; intros Hfree w Hw.
  - destruct (stack w) as [|caller st] eqn:Hst; [congruence|].
    apply (exec_expect_run s groups w caller st Hst).
  - rewrite exec_stmt_call, def_result. apply exec_body_returns; [|discriminate].
    rewrite forallb_forall in Hfree. rewrite Forall_forall in *.
    intros c Hc. apply IH; [exact Hc|]. apply Hfree, list_elem_of_In, Hc.
  - discriminate Hfree.
Qed.

Lemma call_function_returns fn w :
  fn_raise_free fn = true -> result (call_function fn w) = Return tt.
Proof.
  intros Hfree. unfold call_function. rewrite def_result.
  apply exec_body_returns; [|discriminate].
  unfold fn_raise_free in Hfree. rewrite forallb_forall in Hfree.
  apply Forall_forall. intros c Hc. apply raise_free_returns.
  apply Hfree, list_elem_of_In, Hc.
Qed.

(** A call of a declaration function shows as one call at the depth of the
    call site. *)
Lemma call_function_calls fn w :
  calls_at (length (stack w)) (events (call_function fn w)) = [fn_name fn].
Proof.
  unfold call_function. rewrite def_events.
  pose proof (disciplined_exec_body (fn_body fn) (push_frame (frame_of (fn_name fn)) w))
    as (_ & _ & _ & He).
  unfold calls_at at 1. cbn [omap list_omap]. rewrite Nat.eqb_refl.
  fold (calls_at (length (stack w))
          (events (exec_body (fn_body fn) (push_frame (frame_of (fn_name fn)) w)))).
  rewrite calls_at_deeper; [reflexivity|exact He].
Qed.

Lemma for_each_call_function_prefix fns w :
  calls_at (length (stack w)) (events (for_each fns call_function w))
    `prefix_of` map fn_name fns.
Proof.
  revert w. induction fns as [|fn fns IH]; intros w; [apply prefix_nil|].
  cbn [for_each map]. unfold bind.
  pose proof (call_function_calls fn w) as Hc.
  pose proof (disciplined_call_function fn w) as (Hs & _).
  destruct (call_function fn w) as [[[]|e] w1 evs1]; cbn [events final] in *.
  - specialize (IH w1). rewrite Hs in IH.
    destruct (for_each fns call_function w1) as [r2 w2 evs2]; cbn [events] in *.
    rewrite calls_at_app, Hc. apply prefix_cons, IH.
  - rewrite Hc. apply prefix_cons, prefix_nil.
Qed.

Lemma for_each_call_function_all fns w :
  forallb fn_raise_free fns = true ->
  result (for_each fns call_function w) = Return tt /\
  calls_at (length (stack w)) (events (for_each fns call_function w)) = map fn_name fns.
Proof.
  revert w. induction fns as [|fn fns IH]; intros w Hfree; [split; reflexivity|].
  cbn [forallb] in Hfree. apply andb_true_iff in Hfree as [Hfn Hfns].
  cbn [for_each map]. unfold bind.
  pose proof (call_function_calls fn w) as Hc.
  pose proof (call_function_returns fn w Hfn) as Hr.
  pose proof (disciplined_call_function fn w) as (Hs & _).
  destruct (call_function fn w) as [r w1 evs1]; cbn [events final result] in *.
  subst r. destruct (IH w1 Hfns) as [Hr' Hc']. rewrite Hs in Hc'.
  destruct (for_each fns call_function w1) as [r2 w2 evs2]; cbn [events result] in *.
  split; [exact Hr'|]. rewrite calls_at_app, Hc, Hc'. reflexivity.
Qed.

Lemma calls_at_skip d d' name evs :
  d' <> d -> calls_at d (EvCall d' name :: evs) = calls_at d evs.
Proof.
  intros Hne. unfold calls_at. cbn [omap list_omap].
  destruct (Nat.eqb_spec d' d); [contradiction|reflexivity].
Qed.

Lemma def_single_expect name s groups w :
  result (def name (exec_body [SExpect s groups]) w) = Return tt /\
  final (def name (exec_body [SExpect s groups]) w) =
    add_testers s (concat (map (map (partial_on_failure_wrapper name)) groups)) w.
Proof.
  rewrite def_result, def_final. unfold exec_body. cbn [for_each]. unfold bind.
  destruct (exec_expect_run s groups (push_frame (frame_of name) w)
              (frame_of name) (stack w) eq_refl) as [Hr Hf].
  destruct (exec_stmt (SExpect s groups) _) as [r w1 evs]; cbn [result final] in *.
  subst r w1. cbn [ret result final function frame_of].
  split; [reflexivity|apply add_testers_push].
Qed.

Lemma table_lookup_add_testers s l l' w :
  registrar_table w !! s = Some l ->
  registrar_table (add_testers s l' w) !! s = Some (l ++ l').
Proof.
  intros Hl. destruct (add_testers_grows s l' w s l Hl) as [k Hk].
  pose proof (testers_of_add_testers s l' w) as Ht.
  unfold testers_of in Ht. rewrite Hk, Hl in Ht. cbn in Ht.
  apply app_inv_head in Ht. subst k. exact Hk.
Qed.


(** Whatever the callables do, [register] calls them in list order, each
    at most once: the calls it makes are a prefix of the list. *)
Lemma register_calls_prefix fns w :
  calls_at (S (length (stack w))) (events (register fns w)) `prefix_of` map fn_name fns.
Proof.
  unfold register. rewrite def_events, calls_at_skip by lia. unfold bind.
  pose proof (for_each_call_function_prefix fns (push_frame (frame_of "register") w)) as Hp.
  destruct (for_each fns call_function _) as [[[]|e] w1 evs1]; cbn [events ret] in *.
  - rewrite app_nil_r. exact Hp.
  - exact Hp.
Qed.



(** C4: registering testers for a stream that already has some appends
    the new wrapped testers to the stored list, and no operation of the
    module ([register], [expect], the function [expect] returns,
    [_register_tester_for_stream]) removes a key of the table or an element
    of a stored list. *)
Theorem table_only_grows s n ts w l :
  registrar_table w !! s = Some l ->
  registrar_table (final (tests_registrar s n ts w)) !! s =
    Some (l ++ map (partial_on_failure_wrapper n) ts) /\
  (forall t, registrar_table (final (_register_tester_for_stream s t w)) !! s =
             Some (l ++ [t])) /\
  (forall fns, never_shrinks (register fns)) /\
  (forall s', never_shrinks (expect s')) /\
  (forall s' w' r ts', result (expect s' w') = Return r -> never_shrinks (r ts')) /\
  (forall s' n' ts', never_shrinks (tests_registrar s' n' ts')) /\
  (forall s' t, never_shrinks (_register_tester_for_stream s' t)).
Proof.
  intros Hl. split_and!.
  - rewrite tests_registrar_run. cbn [final].
    apply table_lookup_add_testers, Hl.
  - intros t. rewrite register_tester_run. cbn [final].
    apply (table_lookup_add_testers s l [t] w Hl).
  - intros fns. apply disciplined_never_shrinks, disciplined_register.
  - intros s'. apply disciplined_never_shrinks, disciplined_expect.
  - intros s' w' r ts' Hr. destruct (expect_returns_registrar s' w' r Hr) as [n' ->].
    apply disciplined_never_shrinks, disciplined_tests_registrar.
  - intros s' n' ts'. apply disciplined_never_shrinks, disciplined_tests_registrar.
  - intros s' t. apply disciplined_never_shrinks, disciplined_register_tester.
Qed.

(** A second group registered for [numbers], which has one tester already. *)
Lemma table_only_grows_witness :
  registrar_table
    (final (tests_registrar numbers "pscheck_more" [is_positive; always_true]
              world_with_tester)) !! numbers =
    Some ([partial_on_failure_wrapper "pscheck_numbers" returns_none] ++
          map (partial_on_failure_wrapper "pscheck_more") [is_positive; always_true]) /\
  (forall t, registrar_table
               (final (_register_tester_for_stream numbers t world_with_tester))
               !! numbers =
             Some ([partial_on_failure_wrapper "pscheck_numbers" returns_none] ++ [t])) /\
  (forall fns, never_shrinks (register fns)) /\
  (forall s', never_shrinks (expect s')) /\
  (forall s' w' r ts', result (expect s' w') = Return r -> never_shrinks (r ts')) /\
  (forall s' n' ts', never_shrinks (tests_registrar s' n' ts')) /\
  (forall s' t, never_shrinks (_register_tester_for_stream s' t)).
Proof.
  apply (table_only_grows numbers "pscheck_more" [is_positive; always_true]
           world_with_tester).
  reflexivity.
Defined.

(** C6: the correlation name that a call of [expect] resolves is the name
    of the function that called [expect], whatever else is on the stack:
    it is item [2] of the stack that the resolver sees, after the
    frames of the resolver and of [expect].  The testers of a declaration
    function that calls [expect] are stored under the name of that
    function; when a function reaches [expect] through a helper of its
    own, the caller of [expect] is that helper. *)
Theorem expect_resolves_its_caller s w caller :
  result (expect s (push_frame caller w)) =
    Return (tests_registrar s (function caller)) /\
  result (_get_name_of_expect_caller
            (push_frame (frame_of "expect") (push_frame caller w))) =
    Return (function caller) /\
  (forall ts w',
     testers_of (final (tests_registrar s (function caller) ts w')) s =
       testers_of w' s ++ map (partial_on_failure_wrapper (function caller)) ts) /\
  (forall name ts,
     testers_of (final (call_function (mk_function name [SExpect s [ts]]) w)) s =
       testers_of w s ++ map (partial_on_failure_wrapper name) ts) /\
  (forall name helper ts,
     testers_of (final (call_function
                          (mk_function name [SCall helper [SExpect s [ts]]]) w)) s =
       testers_of w s ++ map (partial_on_failure_wrapper helper) ts).
Proof.
  split_and!.
  - rewrite expect_run. reflexivity.
  - destruct w as [ds i st]. reflexivity.
  - intros ts w'. rewrite tests_registrar_run. cbn [final].
    apply testers_of_add_testers.
  - intros name ts. unfold call_function. cbn [fn_name fn_body].
    destruct (def_single_expect name s [ts] w) as [_ ->].
    rewrite testers_of_add_testers. cbn [map concat]. rewrite app_nil_r.
    reflexivity.
  - intros name helper ts. unfold call_function. cbn [fn_name fn_body].
    rewrite def_final. unfold exec_body at 1. cbn [for_each]. unfold bind.
    rewrite exec_stmt_call.
    destruct (def_single_expect helper s [ts] (push_frame (frame_of name) w))
      as [Hr Hf].
    destruct (def helper _ _) as [r w1 evs]; cbn [result final] in *.
    subst r w1. cbn [ret final]. rewrite add_testers_push.
    rewrite testers_of_add_testers. cbn [map concat]. rewrite app_nil_r.
    reflexivity.
Qed.

(** *** Delivery of an element to the stored testers *)

Lemma wrapper_final_and_tester_calls n t x w :
  final (_on_failure_wrapper n t x w) = w /\
  (tester_calls (events (_on_failure_wrapper n t x w)) = [(tester_name t, x)] \/
   tester_calls (events (_on_failure_wrapper n t x w)) = [] /\
   result (_on_failure_wrapper n t x w) <> Return tt).
Proof.
  destruct (registered_integrations (integrations w) !! n) as [entry| ] eqn:He.
  2: { rewrite (wrapper_run_no_entry n t x w He).
       split; [reflexivity|right; split; [reflexivity|discriminate]]. }
  destruct (entry !! "test_description") as [desc| ] eqn:Hd.
  2: { rewrite (wrapper_run_no_description n t x w entry He Hd).
       split; [reflexivity|right; split; [reflexivity|discriminate]]. }
  destruct (tester_call t x) as [v|e] eqn:Hx.
  - destruct (truthy v) eqn:Hv.
    + rewrite (wrapper_run_truthy n t x w entry desc v He Hd Hx Hv).
      split; [reflexivity|left; reflexivity].
    + rewrite (wrapper_run_falsy n t x w entry desc v He Hd Hx Hv). cbn zeta.
      destruct (notify_element_raises _ _ _) as [e| ];
        [ destruct (is_Exception (exc_type e)) | ];
        (split; [reflexivity|left; reflexivity]).
  - rewrite (wrapper_run_raise n t x w entry desc e He Hd Hx). cbn zeta.
    destruct (is_Exception (exc_type e)); (split; [reflexivity|left; reflexivity]).
Qed.

Lemma for_each_wrapped_in_order l x w :
  tester_calls (events (for_each l (fun p => call_wrapped p x) w))
    `prefix_of` map (fun p => (tester_name (p_tester p), x)) l /\
  (result (for_each l (fun p => call_wrapped p x) w) = Return tt ->
   tester_calls (events (for_each l (fun p => call_wrapped p x) w)) =
     map (fun p => (tester_name (p_tester p), x)) l).
Proof.
  induction l as [|p l IH]; [split; [apply prefix_nil|reflexivity]|].
  cbn [for_each map]. unfold bind, call_wrapped at 1 3 5.
  destruct (wrapper_final_and_tester_calls (p_test_name p) (p_tester p) x w)
    as [Hf Hc].
  destruct (_on_failure_wrapper (p_test_name p) (p_tester p) x w)
    as [[[]|e] w1 evs1]; cbn [final events result] in *; subst w1.
  - destruct IH as [IHp IHr].
    destruct (for_each l (fun p0 => call_wrapped p0 x) w) as [r2 w2 evs2];
      cbn [events result] in *.
    unfold tester_calls in *. rewrite omap_app.
    destruct Hc as [Hc|[_ Hc]]; [|contradiction].
    rewrite Hc. split; [apply prefix_cons, IHp|].
    intros Hr. rewrite (IHr Hr). reflexivity.
  - split; [|discriminate].
    destruct Hc as [Hc|[Hc _]]; rewrite Hc;
      [apply prefix_cons, prefix_nil|apply prefix_nil].
Qed.

(** With the delivery loop as the spec describes it, the testers of a
    stream are called on an element in the order of the stored list, that
    is, in registration order; every one of them is called when no wrapped
    tester raises. *)
Lemma deliver_runs_in_registration_order s x w :
  tester_calls (events (deliver s x w))
    `prefix_of` map (fun p => (tester_name (p_tester p), x)) (testers_of w s) /\
  (result (deliver s x w) = Return tt ->
   tester_calls (events (deliver s x w)) =
     map (fun p => (tester_name (p_tester p), x)) (testers_of w s)).
Proof.
  unfold deliver, bind, get_world.
  pose proof (for_each_wrapped_in_order (testers_of w s) x w) as [Hp Hr].
  destruct (for_each (testers_of w s) _ w) as [r w1 evs]; cbn [events result] in *.
  split; assumption.
Qed.

Lemma call_wrapped_reportable p x w :
  reportable w x p -> result (call_wrapped p x w) = Return tt.
Proof.
  intros ((entry & desc & He & Hd) & Hexc & Hne & Hnr). unfold call_wrapped.
  destruct (tester_call (p_tester p) x) as [v|e] eqn:Hx.
  - destruct (truthy v) eqn:Hv.
    + rewrite (wrapper_run_truthy _ _ _ _ entry desc v He Hd Hx Hv). reflexivity.
    + rewrite (wrapper_run_falsy _ _ _ _ entry desc v He Hd Hx Hv). cbn zeta.
      rewrite Hne. reflexivity.
  - rewrite (wrapper_run_raise _ _ _ _ entry desc e He Hd Hx). cbn zeta.
    rewrite (Hexc e eq_refl), Hnr. reflexivity.
Qed.

Lemma for_each_wrapped_final l x w :
  final (for_each l (fun p => call_wrapped p x) w) = w.
Proof.
  induction l as [|p l IH]; [reflexivity|].
  cbn [for_each]. unfold bind, call_wrapped at 1.
  destruct (wrapper_final_and_tester_calls (p_test_name p) (p_tester p) x w) as [Hf _].
  destruct (_on_failure_wrapper (p_test_name p) (p_tester p) x w)
    as [[[]|e] w1 evs1]; cbn [final] in *; subst w1; [|reflexivity].
  destruct (for_each l (fun p0 => call_wrapped p0 x) w) as [r2 w2 evs2].
  exact IH.
Qed.

Lemma for_each_wrapped_returns l x w :
  Forall (reportable w x) l ->
  result (for_each l (fun p => call_wrapped p x) w) = Return tt.
Proof.
  induction 1 as [|p l Hp _ IH]; [reflexivity|].
  cbn [for_each]. unfold bind.
  pose proof (call_wrapped_reportable p x w Hp) as Hr.
  pose proof (wrapper_final_and_tester_calls (p_test_name p) (p_tester p) x w) as [Hf _].
  unfold call_wrapped in *.
  destruct (_on_failure_wrapper (p_test_name p) (p_tester p) x w)
    as [r w1 evs1]; cbn [final result] in *; subst r w1.
  destruct (for_each l _ w) as [r2 w2 evs2]. exact IH.
Qed.

Lemma deliver_final s x w : final (deliver s x w) = w.
Proof.
  unfold deliver, bind, get_world.
  pose proof (for_each_wrapped_final (testers_of w s) x w) as Hf.
  destruct (for_each (testers_of w s) _ w) as [r w1 evs]. exact Hf.
Qed.

Lemma deliver_returns s x w :
  Forall (reportable w x) (testers_of w s) -> result (deliver s x w) = Return tt.
Proof.
  intros H. unfold deliver, bind, get_world.
  pose proof (for_each_wrapped_returns (testers_of w s) x w H) as Hr.
  destruct (for_each (testers_of w s) _ w) as [r w1 evs]. exact Hr.
Qed.

(** Elements delivered one after the other: for each of them, in turn,
    every stored tester is called, in the order of the stored list. *)
Lemma deliver_each_element s xs w :
  Forall (fun x => Forall (reportable w x) (testers_of w s)) xs ->
  result (for_each xs (deliver s) w) = Return tt /\
  tester_calls (events (for_each xs (deliver s) w)) =
    concat (map (fun x => map (fun p => (tester_name (p_tester p), x)) (testers_of w s))
                xs).
Proof.
  induction 1 as [|x xs Hx _ IH]; [split; reflexivity|].
  cbn [for_each map concat]. unfold bind.
  pose proof (deliver_returns s x w Hx) as Hr.
  pose proof (deliver_final s x w) as Hf.
  destruct (deliver_runs_in_registration_order s x w) as [_ Hc].
  destruct (deliver s x w) as [r w1 evs1]; cbn [result final events] in *.
  subst r w1. specialize (Hc eq_refl). destruct IH as [IHr IHc].
  destruct (for_each xs (deliver s) w) as [r2 w2 evs2]; cbn [result events] in *.
  split; [exact IHr|]. unfold tester_calls in *. rewrite omap_app, Hc, IHc.
  reflexivity.
Qed.

(** C7: the wrapped testers of a stream are stored in registration order,
    and run in that order for each emitted element.  One call of the
    function that [expect] returns stores its testers in argument order,
    after those already stored; the testers of a later call come after the
    testers of an earlier call; the lists of other streams are not
    touched.  When an element is then delivered to the stream, the testers
    are called in the order of registration: the calls made are a prefix
    of the registered testers in every case and all of them, each once,
    when the delivery comes back, which it does when every stored tester
    is [reportable]; for a sequence of elements, every tester is called
    once per element, element by element, in registration order. *)
Theorem testers_kept_in_registration_order s n ts w :
  testers_of (final (tests_registrar s n ts w)) s =
    testers_of w s ++ map (partial_on_failure_wrapper n) ts /\
  (forall n' ts',
     testers_of (final ((tests_registrar s n ts ;; tests_registrar s n' ts') w)) s =
       testers_of w s ++ map (partial_on_failure_wrapper n) ts
                      ++ map (partial_on_failure_wrapper n') ts') /\
  (forall groups,
     testers_of (final (for_each groups (tests_registrar s n) w)) s =
       testers_of w s ++
       concat (map (map (partial_on_failure_wrapper n)) groups)) /\
  (forall s', s' <> s ->
     testers_of (final (tests_registrar s n ts w)) s' = testers_of w s') /\
  (forall x,
     let w' := final (tests_registrar s n ts w) in
     let registered := testers_of w s ++ map (partial_on_failure_wrapper n) ts in
     tester_calls (events (deliver s x w'))
       `prefix_of` map (fun p => (tester_name (p_tester p), x)) registered /\
     (result (deliver s x w') = Return tt ->
      tester_calls (events (deliver s x w')) =
        map (fun p => (tester_name (p_tester p), x)) registered) /\
     (Forall (reportable w' x) registered ->
      result (deliver s x w') = Return tt)) /\
  (forall xs,
     let w' := final (tests_registrar s n ts w) in
     let registered := testers_of w s ++ map (partial_on_failure_wrapper n) ts in
     Forall (fun x => Forall (reportable w' x) registered) xs ->
     result (for_each xs (deliver s) w') = Return tt /\
     tester_calls (events (for_each xs (deliver s) w')) =
       concat (map (fun x => map (fun p => (tester_name (p_tester p), x)) registered)
                   xs)).
Proof.
  assert (Hstored : testers_of (final (tests_registrar s n ts w)) s =
                    testers_of w s ++ map (partial_on_failure_wrapper n) ts).
  { rewrite tests_registrar_run. apply testers_of_add_testers. }
  split_and!.
  - exact Hstored.
  - intros n' ts'. unfold bind. rewrite !tests_registrar_run. cbn [final].
    rewrite !testers_of_add_testers, app_assoc. reflexivity.
  - intros groups. destruct (for_each_groups_run s n groups w) as [evs ->].
    apply testers_of_add_testers.
  - intros s' Hne. rewrite tests_registrar_run. cbn [final].
    unfold testers_of. rewrite add_testers_other by exact Hne. reflexivity.
  - intros x w' registered. subst w' registered. rewrite <- Hstored.
    destruct (deliver_runs_in_registration_order s x
                (final (tests_registrar s n ts w))) as [Hp He].
    split_and!; [exact Hp|exact He|apply deliver_returns].
  - intros xs w' registered. subst w' registered. rewrite <- Hstored.
    apply deliver_each_element.
Qed.

(** With the sample integrations every tester of the samples that raises
    no [KeyboardInterrupt] is reportable under [pscheck_numbers]. *)
Example sample_testers_reportable x :
  Forall (reportable sample_world x)
         (map (partial_on_failure_wrapper "pscheck_numbers")
              [returns_none; is_positive; always_true]).
Proof.
  repeat constructor;
    try (exists {[ "test_description" := VStr "numbers are positive" ]},
                (VStr "numbers are positive"); split; reflexivity);
    cbn; intros e H; try discriminate H.
  destruct x; try discriminate H; injection H as <-; reflexivity.
Qed.

(** [numbers] has [returns_none] stored; two more testers are registered
    and [-3] is delivered: the three testers are called in that order. *)
Lemma testers_kept_in_registration_order_witness :
  let w' := final (tests_registrar numbers "pscheck_numbers"
                     [is_positive; always_true] world_with_tester) in
  tester_calls (events (deliver numbers (VInt (-3)) w')) =
    map (fun p => (tester_name (p_tester p), VInt (-3)))
        (testers_of world_with_tester numbers ++
         map (partial_on_failure_wrapper "pscheck_numbers") [is_positive; always_true]).
Proof.
  destruct (testers_kept_in_registration_order numbers "pscheck_numbers"
              [is_positive; always_true] world_with_tester)
    as (_ & _ & _ & _ & Hdeliver & _).
  destruct (Hdeliver (VInt (-3))) as (_ & Hall & _).
  apply Hall. reflexivity.
Defined.

(** ** The sample declaration, run *)

(** [register([pscheck_numbers])] at module level: the calls made, and
    what the table holds for [numbers] afterwards. *)
Example register_sample_calls :
  let r := register [pscheck_numbers] sample_world in
  result r = Return stream_to_testers /\
  events r =
    [EvCall 1 "register"; EvCall 2 "pscheck_numbers"; EvCall 3 "expect";
     EvCall 4 "_get_name_of_expect_caller"; EvCall 3 "tests_registrar";
     EvCall 4 "_register_tester_for_stream";
     EvCall 4 "_register_tester_for_stream"] /\
  testers_of (final r) numbers =
    [partial_on_failure_wrapper "pscheck_numbers" is_positive;
     partial_on_failure_wrapper "pscheck_numbers" always_true].
Proof. split_and!; reflexivity. Qed.

(** Delivering [-3] to [numbers] afterwards: [is_positive] fails and is
    reported, [always_true] is called after it. *)
Example deliver_sample :
  let w := final (register [pscheck_numbers] sample_world) in
  tester_calls (events (deliver numbers (VInt (-3)) w)) =
    [("is_positive", VInt (-3)); ("always_true", VInt (-3))] /\
  notify_element_calls (events (deliver numbers (VInt (-3)) w)) =
    [("pscheck_numbers",
      message_payload (VStr "numbers are positive") "is_positive" (VInt (-3)))].
Proof. split; vm_compute; reflexivity. Qed.

(** ** Further properties of the module *)

(** Every case of a run of the wrapper, with the run rewritten. *)
Ltac wrapper_cases n t x w :=
  let entry := fresh "entry" in
  let desc := fresh "desc" in
  let v := fresh "v" in
  let e := fresh "e" in
  let He := fresh "He" in
  let Hd := fresh "Hd" in
  let Hx := fresh "Hx" in
  let Hv := fresh "Hv" in
  destruct (registered_integrations (integrations w) !! n) as [entry| ] eqn:He;
  [ destruct (entry !! "test_description") as [desc| ] eqn:Hd;
    [ destruct (tester_call t x) as [v|e] eqn:Hx;
      [ destruct (truthy v) eqn:Hv;
        [ rewrite (wrapper_run_truthy n t x w entry desc v He Hd Hx Hv)
        | rewrite (wrapper_run_falsy n t x w entry desc v He Hd Hx Hv); cbn zeta;
          destruct (notify_element_raises (integrations w) n
                      (message_payload desc (tester_name t) x)) as [e| ];
          [ destruct (is_Exception (exc_type e)) | ] ]
      | rewrite (wrapper_run_raise n t x w entry desc e He Hd Hx); cbn zeta;
        destruct (is_Exception (exc_type e)) ]
    | rewrite (wrapper_run_no_description n t x w entry He Hd) ]
  | rewrite (wrapper_run_no_entry n t x w He) ].

(** X1: [_get_name_of_expect_caller] gives the name of the caller of its
    caller, and raises [IndexError] when fewer than two frames are active
    at its call. *)
Theorem resolver_names_the_callers_caller w f g :
  result (_get_name_of_expect_caller (push_frame f (push_frame g w))) =
    Return (function g) /\
  (forall ds i,
     result (_get_name_of_expect_caller (Build_World ds i [])) =
       Raise (mk_exc IndexError "list index out of range")) /\
  (forall ds i h,
     result (_get_name_of_expect_caller (Build_World ds i [h])) =
       Raise (mk_exc IndexError "list index out of range")).
Proof.
  split_and!; [destruct w|intros ds i|intros ds i h]; reflexivity.
Qed.

(** X2: a call of [expect] stores nothing and calls nothing outside the
    module: the state is left as it was, for every stream and state.  The
    table changes only when the function it returns is called. *)
Theorem expect_alone_registers_nothing s w :
  final (expect s w) = w /\
  tester_calls (events (expect s w)) = [] /\
  notify_element_calls (events (expect s w)) = [] /\
  notify_error_calls (events (expect s w)) = [].
Proof.
  rewrite expect_run. destruct (stack w); split_and!; reflexivity.
Qed.

Lemma dom_add_tester s t w :
  dom (registrar_table (add_tester s t w)) = {[s]} ∪ dom (registrar_table w).
Proof.
  unfold add_tester, registrar_table, set_dict. cbn. apply dom_insert_L.
Qed.

(** X3: the function that [expect] returns, called with no tester, leaves
    the table as it was (the stream does not become a key); called with at
    least one tester, it makes the stream a key and adds no other key. *)
Theorem registrar_keys s n w :
  registrar_table (final (tests_registrar s n [] w)) = registrar_table w /\
  (forall t ts,
     dom (registrar_table (final (tests_registrar s n (t :: ts) w))) =
       {[s]} ∪ dom (registrar_table w)).
Proof.
  split.
  - rewrite tests_registrar_run. reflexivity.
  - intros t ts. rewrite tests_registrar_run. cbn [final map].
    generalize (partial_on_failure_wrapper n t) as p.
    generalize (map (partial_on_failure_wrapper n) ts) as l. clear t ts.
    intros l. revert w. induction l as [|q l IH]; intros w p.
    + cbn. apply dom_add_tester.
    + change (add_testers s (p :: q :: l) w)
        with (add_testers s (q :: l) (add_tester s p w)).
      rewrite IH, dom_add_tester, (assoc_L (∪)), (idemp_L (∪)). reflexivity.
Qed.

(** X4: whatever the registry, the tester and the notification entry
    points do, a call of the wrapper leaves the state (the table with it)
    as it was, calls the tester at most once and each notification entry
    point at most once, and notifies only after it has called the tester. *)
Theorem wrapper_calls_are_bounded n t x w :
  let r := _on_failure_wrapper n t x w in
  final r = w /\
  length (tester_calls (events r)) <= 1 /\
  length (notify_element_calls (events r)) <= 1 /\
  length (notify_error_calls (events r)) <= 1 /\
  (tester_calls (events r) = [] ->
   notify_element_calls (events r) = [] /\ notify_error_calls (events r) = []).
Proof.
  intros r. subst r. wrapper_cases n t x w; cbn [final events];
    (split_and!; [reflexivity|cbn; lia|cbn; lia|cbn; lia|]);
    intros H; try discriminate H; split; reflexivity.
Qed.

(** X5: every notification that the wrapper sends is sent under the
    correlation name the wrapper was built with, and its payload holds the
    description that the registry has for that name under ['test_name'],
    the name of the tester under ['expect_function'] and the element
    under ['element'], on every path. *)
Theorem notifications_carry_the_context n t x w :
  let r := _on_failure_wrapper n t x w in
  Forall (fun call =>
            fst call = n /\
            snd call !! "expect_function" = Some (VStr (tester_name t)) /\
            snd call !! "element" = Some x /\
            exists entry,
              registered_integrations (integrations w) !! n = Some entry /\
              entry !! "test_description" = snd call !! "test_name")
         (notify_element_calls (events r) ++ notify_error_calls (events r)).
Proof.
  intros r. subst r.
  assert (Hp : forall desc p,
             p = message_payload desc (tester_name t) x \/
             (exists e, p = <["error" := VExc e]>
                              (message_payload desc (tester_name t) x)) ->
             p !! "expect_function" = Some (VStr (tester_name t)) /\
             p !! "element" = Some x /\
             p !! "test_name" = Some desc).
  { intros desc p Hp.
    destruct (payload_fields desc (tester_name t) x) as (Hn & Hf & Hel & _).
    destruct Hp as [->|[e ->]]; rewrite ?lookup_insert_ne by discriminate;
      split_and!; assumption. }
  wrapper_cases n t x w; cbn [events];
    cbn [notify_element_calls notify_error_calls wrapper_tested wrapper_called
         omap list_omap app];
    repeat first [ apply List.Forall_nil | apply List.Forall_cons ];
    cbn [fst snd];
    match goal with
    | |- _ = _ /\ ?p !! _ = _ /\ _ =>
        destruct (Hp desc p) as (Hf & Hel & Hn);
        [ first [ left; reflexivity | right; eexists; reflexivity ] | ];
        split_and!; [ reflexivity | exact Hf | exact Hel | ];
        exists entry; split; [ reflexivity | congruence ]
    end.
Qed.

(** X6: when the registry has an entry for the correlation name but the
    entry has no ['test_description'], the wrapper raises
    [KeyError('test_description')] without calling the tester or a
    notification entry point. *)
Theorem missing_description_propagates n t x w entry :
  registered_integrations (integrations w) !! n = Some entry ->
  entry !! "test_description" = None ->
  let r := _on_failure_wrapper n t x w in
  result r = Raise (mk_exc KeyError "test_description") /\
  tester_calls (events r) = [] /\
  notify_element_calls (events r) = [] /\
  notify_error_calls (events r) = [].
Proof.
  intros He Hd r. subst r. rewrite (wrapper_run_no_description n t x w entry He Hd).
  split_and!; reflexivity.
Qed.

(** The entry of [pscheck_numbers] is an empty dict. *)
Lemma missing_description_propagates_witness :
  let r := _on_failure_wrapper "pscheck_numbers" is_positive (VInt 1)
             (world_with undescribed_integrations) in
  result r = Raise (mk_exc KeyError "test_description") /\
  tester_calls (events r) = [] /\
  notify_element_calls (events r) = [] /\
  notify_error_calls (events r) = [].
Proof.
  apply (missing_description_propagates "pscheck_numbers" is_positive (VInt 1)
           (world_with undescribed_integrations) ∅);
    reflexivity.
Defined.

(** X7: the handler of the wrapper is not itself guarded.  When the
    tester raises an instance of [Exception] and the error notification
    raises in turn, the exception of the notification leaves the wrapper,
    whatever its class, after the one call of the error-notification entry
    point. *)
Theorem failed_error_notification_propagates n t x w entry desc e e' :
  registered_integrations (integrations w) !! n = Some entry ->
  entry !! "test_description" = Some desc ->
  tester_call t x = Raise e ->
  is_Exception (exc_type e) = true ->
  notify_error_raises (integrations w) n
    (<["error" := VExc e]> (message_payload desc (tester_name t) x)) = Some e' ->
  let r := _on_failure_wrapper n t x w in
  result r = Raise e' /\
  notify_error_calls (events r) =
    [(n, <["error" := VExc e]> (message_payload desc (tester_name t) x))] /\
  notify_element_calls (events r) = [].
Proof.
  intros He Hd Hx Hexc Hn r. subst r.
  rewrite (wrapper_run_raise n t x w entry desc e He Hd Hx). cbn zeta.
  rewrite Hexc, Hn. split_and!; reflexivity.
Qed.

(** [is_positive] raises [TypeError] on a string and the error
    notification fails with [ConnectionError]. *)
Lemma failed_error_notification_propagates_witness :
  let e := mk_exc (OtherException "TypeError") "unorderable types" in
  let e' := mk_exc (OtherException "ConnectionError") "refused" in
  let r := _on_failure_wrapper "pscheck_numbers" is_positive (VStr "a")
             (world_with (unreachable_integrations e')) in
  result r = Raise e' /\
  notify_error_calls (events r) =
    [("pscheck_numbers",
      <["error" := VExc e]>
        (message_payload (VStr "numbers are positive") "is_positive" (VStr "a")))] /\
  notify_element_calls (events r) = [].
Proof.
  apply (failed_error_notification_propagates "pscheck_numbers" is_positive (VStr "a")
           (world_with (unreachable_integrations
                          (mk_exc (OtherException "ConnectionError") "refused")))
           {[ "test_description" := VStr "numbers are positive" ]}
           (VStr "numbers are positive")
           (mk_exc (OtherException "TypeError") "unorderable types")
           (mk_exc (OtherException "ConnectionError") "refused"));
    reflexivity.
Defined.

(** X8: an exception of the tester that is not an instance of
    [Exception] leaves the wrapper as it is: the tester has been called
    once and no notification entry point is called. *)
Theorem base_exception_leaves_the_wrapper n t x w entry desc e :
  registered_integrations (integrations w) !! n = Some entry ->
  entry !! "test_description" = Some desc ->
  tester_call t x = Raise e ->
  is_Exception (exc_type e) = false ->
  let r := _on_failure_wrapper n t x w in
  result r = Raise e /\
  tester_calls (events r) = [(tester_name t, x)] /\
  notify_element_calls (events r) = [] /\
  notify_error_calls (events r) = [].
Proof.
  intros He Hd Hx Hexc r. subst r.
  rewrite (wrapper_run_raise n t x w entry desc e He Hd Hx). cbn zeta.
  rewrite Hexc. split_and!; reflexivity.
Qed.

(** [interrupted] raises [KeyboardInterrupt]. *)
Lemma base_exception_leaves_the_wrapper_witness :
  let r := _on_failure_wrapper "pscheck_numbers" interrupted (VInt 1) sample_world in
  result r = Raise (mk_exc KeyboardInterrupt "") /\
  tester_calls (events r) = [("interrupted", VInt 1)] /\
  notify_element_calls (events r) = [] /\
  notify_error_calls (events r) = [].
Proof.
  apply (base_exception_leaves_the_wrapper "pscheck_numbers" interrupted (VInt 1)
           sample_world {[ "test_description" := VStr "numbers are positive" ]}
           (VStr "numbers are positive") (mk_exc KeyboardInterrupt ""));
    reflexivity.
Defined.

(** X9: [_make_message_payload] returns a dict with exactly the three keys
    ['test_name'], ['expect_function'] and ['element'], each holding the
    argument given for it, and changes nothing. *)
Theorem make_message_payload_fields d name x w :
  exists p,
    result (_make_message_payload d name x w) = Return p /\
    final (_make_message_payload d name x w) = w /\
    dom p = ({[ "test_name"; "expect_function"; "element" ]} : gset string) /\
    p !! "test_name" = Some d /\
    p !! "expect_function" = Some (VStr name) /\
    p !! "element" = Some x.
Proof.
  exists (message_payload d name x).
  destruct (payload_fields d name x) as (Hn & Hf & Hel & _).
  split_and!; try assumption.
  - reflexivity.
  - destruct w; reflexivity.
  - unfold message_payload. rewrite !dom_insert_L, dom_empty_L.
    rewrite (right_id_L ∅ (∪)), (assoc_L (∪)). reflexivity.
Qed.

(** *** How calls of [register] compose *)

Lemma for_each_app {A} (l1 l2 : list A) (body : A -> M unit) w :
  for_each (l1 ++ l2) body w =
    (for_each l1 body ;; for_each l2 body) w.
Proof.
  revert w. induction l1 as [|a l1 IH]; intros w.
  - cbn [app for_each]. unfold bind, ret.
    destruct (for_each l2 body w) as [r w2 evs2]. reflexivity.
  - cbn [app for_each]. unfold bind at 1 2 3.
    destruct (body a w) as [[[]|e] w1 evs1]; [|reflexivity].
    rewrite IH. unfold bind.
    destruct (for_each l1 body w1) as [[[]|e] w2 evs2]; [|reflexivity].
    destruct (for_each l2 body w2) as [r3 w3 evs3].
    rewrite app_assoc. reflexivity.
Qed.

Lemma push_pop fr w st : stack w = fr :: st -> push_frame fr (pop_frame w) = w.
Proof. destruct w as [ds i st']. cbn. intros ->. reflexivity. Qed.

(** X10: registering a list of declaration functions in one call of
    [register] or in two successive calls gives the same result and the
    same final state, when the functions of the first part return
    normally. *)
Theorem register_in_two_calls l1 l2 w :
  forallb fn_raise_free l1 = true ->
  result (register (l1 ++ l2) w) = result (register l2 (final (register l1 w))) /\
  final (register (l1 ++ l2) w) = final (register l2 (final (register l1 w))).
Proof.
  intros Hfree. unfold register.
  rewrite !def_result, !def_final.
  set (fr := frame_of "register").
  unfold bind. rewrite for_each_app. unfold bind.
  destruct (for_each_call_function_all l1 (push_frame fr w) Hfree) as [Hr _].
  pose proof (disciplined_for_each l1 call_function disciplined_call_function
                (push_frame fr w)) as (Hs & _).
  destruct (for_each l1 call_function (push_frame fr w)) as [r w1 evs1];
    cbn [result final] in *.
  subst r. cbn [ret final].
  rewrite (push_pop fr w1 (stack w) Hs).
  destruct (for_each l2 call_function w1) as [[[]|e] w2 evs2]; split; reflexivity.
Qed.

(** Two declarations registered at once or one after the other. *)
Lemma register_in_two_calls_witness :
  result (register ([pscheck_numbers] ++ [pscheck_broken]) sample_world) =
    result (register [pscheck_broken] (final (register [pscheck_numbers] sample_world))) /\
  final (register ([pscheck_numbers] ++ [pscheck_broken]) sample_world) =
    final (register [pscheck_broken] (final (register [pscheck_numbers] sample_world))).
Proof.
  apply (register_in_two_calls [pscheck_numbers] [pscheck_broken] sample_world).
  reflexivity.
Defined.

Lemma exec_body_raises body :
  Forall (fun c => raise_free c = false ->
                   forall w, stack w <> [] -> exists e, result (exec_stmt c w) = Raise e)
         body ->
  forallb raise_free body = false ->
  forall w, stack w <> [] -> exists e, result (exec_body body w) = Raise e.
Proof.
  unfold exec_body. induction 1 as [|c body Hc _ IH]; intros Hfree w Hw;
    [discriminate Hfree|].
  cbn [forallb] in Hfree. cbn [for_each]. unfold bind.
  pose proof (disciplined_exec_stmt c w) as (Hs & _).
  destruct (raise_free c) eqn:Hcf.
  - cbn in Hfree.
    destruct (exec_stmt c w) as [[[]|e] w1 evs1]; cbn [final] in *;
      [|exists e; reflexivity].
    assert (Hw1 : stack w1 <> []) by (rewrite Hs; exact Hw).
    destruct (IH Hfree w1 Hw1) as [e He].
    destruct (for_each body exec_stmt w1) as [r2 w2 evs2]; cbn [result] in *.
    exists e. exact He.
  - destruct (Hc eq_refl w Hw) as [e He].
    destruct (exec_stmt c w) as [r w1 evs1]; cbn [result] in *. subst r.
    exists e. reflexivity.
Qed.

Lemma not_raise_free_raises c :
  raise_free c = false ->
  forall w, stack w <> [] -> exists e, result (exec_stmt c w) = Raise e.
Proof.
  induction c as [s groups|name body IH|e] using stmt_nested_ind;
    cbn [raise_free]; intros Hfree w Hw.
  - discriminate Hfree.
  - rewrite exec_stmt_call, def_result.
    apply exec_body_raises; [exact IH|exact Hfree|discriminate].
  - exists e. reflexivity.
Qed.

Lemma call_function_raises fn w :
  fn_raise_free fn = false -> exists e, result (call_function fn w) = Raise e.
Proof.
  intros Hfree. unfold call_function. rewrite def_result.
  apply exec_body_raises; [|exact Hfree|discriminate].
  apply Forall_forall. intros c _. apply not_raise_free_raises.
Qed.

Lemma for_each_stops_at_raise l1 fn l2 w :
  fn_raise_free fn = false ->
  for_each (l1 ++ fn :: l2) call_function w = for_each (l1 ++ [fn]) call_function w /\
  exists e, result (for_each (l1 ++ [fn]) call_function w) = Raise e.
Proof.
  intros Hfree. revert w. induction l1 as [|a l1 IH]; intros w.
  - cbn [app for_each]. unfold bind.
    destruct (call_function_raises fn w Hfree) as [e He].
    destruct (call_function fn w) as [r w1 evs1]; cbn [result] in *. subst r.
    split; [reflexivity|exists e; reflexivity].
  - cbn [app for_each]. unfold bind.
    destruct (call_function a w) as [[[]|e] w1 evs1].
    + destruct (IH w1) as [-> [e He]].
      destruct (for_each (l1 ++ [fn]) call_function w1) as [r w2 evs2];
        cbn [result] in *.
      split; [reflexivity|exists e; exact He].
    + split; [reflexivity|exists e; reflexivity].
Qed.

(** X11: the declaration functions listed after one that raises have no
    effect at all: [register] runs as if the list ended with the raising
    function, and it raises. *)
Theorem functions_after_a_raise_are_ignored l1 fn l2 w :
  fn_raise_free fn = false ->
  register (l1 ++ fn :: l2) w = register (l1 ++ [fn]) w /\
  exists e, result (register (l1 ++ fn :: l2) w) = Raise e.
Proof.
  intros Hfree. unfold register, def, in_frame, bind.
  destruct (for_each_stops_at_raise l1 fn l2 (push_frame (frame_of "register") w) Hfree)
    as [-> [e He]].
  destruct (for_each (l1 ++ [fn]) call_function _) as [r w1 evs1]; cbn [result] in *.
  subst r. split; [reflexivity|exists e; reflexivity].
Qed.

(** [pscheck_broken] raises; [pscheck_numbers] after it is not run. *)
Lemma functions_after_a_raise_are_ignored_witness :
  register ([pscheck_numbers] ++ pscheck_broken :: [pscheck_numbers]) sample_world =
    register ([pscheck_numbers] ++ [pscheck_broken]) sample_world /\
  exists e,
    result (register ([pscheck_numbers] ++ pscheck_broken :: [pscheck_numbers])
              sample_world) = Raise e.
Proof.
  apply (functions_after_a_raise_are_ignored [pscheck_numbers] pscheck_broken
           [pscheck_numbers] sample_world).
  reflexivity.
Defined.

(** *** Registration and the [integrations] module *)

Lemma ignores_ret {A} (a : A) : ignores_integrations (ret a).
Proof. intros i w. reflexivity. Qed.

Lemma ignores_raise {A} e : ignores_integrations (@raise A e).
Proof. intros i w. reflexivity. Qed.

Lemma ignores_bind {A B} (m : M A) (k : A -> M B) :
  ignores_integrations m -> (forall a, ignores_integrations (k a)) ->
  ignores_integrations (bind m k).
Proof.
  intros Hm Hk i w. unfold bind. rewrite (Hm i w).
  destruct (m w) as [[a|e] w1 evs1]; cbn [result final events]; [|reflexivity].
  rewrite (Hk a i w1). destruct (k a w1) as [r w2 evs2]. reflexivity.
Qed.

Lemma ignores_for_each {A} (l : list A) (body : A -> M unit) :
  (forall a, ignores_integrations (body a)) -> ignores_integrations (for_each l body).
Proof.
  intros Hb. induction l as [|a l IH]; cbn [for_each].
  - apply ignores_ret.
  - apply ignores_bind; [apply Hb|intros _; exact IH].
Qed.

Lemma ignores_def {A} name (body : M A) :
  ignores_integrations body -> ignores_integrations (def name body).
Proof.
  intros Hb i w. unfold def, in_frame.
  change (push_frame (frame_of name) (set_integrations i w))
    with (set_integrations i (push_frame (frame_of name) w)).
  rewrite (Hb i (push_frame (frame_of name) w)).
  destruct (body (push_frame (frame_of name) w)) as [r w1 evs]. reflexivity.
Qed.

Lemma ignores_tests_registrar s n ts : ignores_integrations (tests_registrar s n ts).
Proof.
  apply ignores_def, ignores_for_each. intros t i w.
  rewrite !register_tester_run. reflexivity.
Qed.

Lemma ignores_exec_stmt c : ignores_integrations (exec_stmt c).
Proof.
  induction c as [s groups|name body IH|e] using stmt_nested_ind.
  - cbn [exec_stmt]. intros i w. unfold bind. rewrite !expect_run.
    cbn [stack set_integrations].
    destruct (stack w) as [|caller st]; [reflexivity|].
    rewrite (ignores_for_each groups (tests_registrar s (function caller))
               (ignores_tests_registrar s (function caller)) i w).
    destruct (for_each groups _ w) as [r w2 evs2]. reflexivity.
  - rewrite exec_stmt_call. apply ignores_def. unfold exec_body.
    induction IH as [|c body Hc _ IHb]; cbn [for_each].
    + apply ignores_ret.
    + apply ignores_bind; [exact Hc|intros _; exact IHb].
  - apply ignores_raise.
Qed.

Lemma ignores_register fns : ignores_integrations (register fns).
Proof.
  apply ignores_def, ignores_bind.
  - apply ignores_for_each. intros fn.
    apply ignores_def, ignores_for_each, ignores_exec_stmt.
  - intros _. apply ignores_ret.
Qed.

(** X12: registration neither reads nor writes the [integrations] module.
    For every list of declaration functions, [register] gives the same
    result, makes the same calls and builds the same table whatever the
    registry and the notification functions are, and leaves the module as
    it found it; a name missing from the registry is noticed only when an
    element is processed. *)
Theorem registration_ignores_integrations fns i w :
  result (register fns (set_integrations i w)) = result (register fns w) /\
  events (register fns (set_integrations i w)) = events (register fns w) /\
  registrar_table (final (register fns (set_integrations i w))) =
    registrar_table (final (register fns w)) /\
  integrations (final (register fns w)) = integrations w.
Proof.
  rewrite (ignores_register fns i w). cbn [result final events].
  split_and!; try reflexivity. apply (disciplined_register fns w).
Qed.

(** *** Declarations, end to end *)

Lemma for_each_declarations_run s specs w :
  exists evs,
    for_each (map (declaration s) specs) call_function w =
      mk_run (Return tt) (add_testers s (declared specs) w) evs.
Proof.
  revert w. induction specs as [|[name ts] specs IH]; intros w.
  - exists []. reflexivity.
  - cbn [map for_each]. unfold bind.
    change (call_function (declaration s (name, ts)))
      with (def name (exec_body [SExpect s [ts]])).
    destruct (def_single_expect name s [ts] w) as [Hr Hf].
    destruct (def name (exec_body [SExpect s [ts]]) w) as [r w1 evs1];
      cbn [result final] in *.
    subst r w1. cbn [map concat]. rewrite app_nil_r.
    destruct (IH (add_testers s (map (partial_on_failure_wrapper name) ts) w))
      as [evs ->].
    eexists. unfold declared. cbn [map concat fst snd].
    rewrite add_testers_app. reflexivity.
Qed.

(** X13: [register], given declaration functions that each attach their
    testers to a stream [s], returns the table, in which the list of [s]
    is the list it had, followed by the testers of the first function,
    each wrapped under the name of that function, then by those of the
    second function under its name, and so on. *)
Theorem register_stores_declarations_in_order s specs w :
  let r := register (map (declaration s) specs) w in
  result r = Return stream_to_testers /\
  testers_of (final r) s = testers_of w s ++ declared specs /\
  (forall s', s' <> s -> testers_of (final r) s' = testers_of w s').
Proof.
  intros r. subst r. unfold register. rewrite def_result, def_final. unfold bind.
  destruct (for_each_declarations_run s specs (push_frame (frame_of "register") w))
    as [evs ->].
  cbn [ret result final]. rewrite add_testers_push.
  split_and!.
  - reflexivity.
  - apply testers_of_add_testers.
  - intros s' Hne. unfold testers_of. rewrite add_testers_other by exact Hne.
    reflexivity.
Qed.
